(** * The streaming-transcript client of the notes workspace

    A shallow embedding of the React hook [useTranscriptionWebSocket]
    (src/components/notes/MarkdownEditor.tsx, lines 250-545): its two
    WebSocket handles, the message handler of the data connection, the
    750 ms fallback timer and the teardown paths.

    Conventions of the embedding.
    - A JavaScript string is a [string] whose characters are code units
      below 256 (Latin-1); [trim] removes the code units that
      String.prototype.trim removes in that range.
    - The hook's React state and refs, and the part of the browser the hook
      talks to (sockets, pending timeouts, console, toasts, the consumer
      callback) are one record that every handler transforms.
    - A state setter takes effect at once; a handler closure that reads the
      variable [status] reads the value captured when [connect] ran, as the
      closure does.
    - console.log is not modelled; console.error is. *)

From Stdlib Require Import String Ascii List Bool Arith PeanoNat NArith PArith ZArith Lia.
From Stdlib Require Import Decimal DecimalNat DecimalString.
From stdpp Require Import base option list.
Import ListNotations.
Local Open Scope string_scope.
Local Open Scope list_scope.

(** ** JavaScript string primitives used by the hook *)

Module JsString.

(** The double-quote character, kept out of literals. *)
Definition dquote : string := String (ascii_of_nat 34) EmptyString.

(** Truthiness of a string: only the empty string is falsy. *)
Definition truthy (s : string) : bool :=
  match s with
  | EmptyString => false
  | String _ _ => true
  end.

(** WhiteSpace and LineTerminator code units below 256:
    TAB, LF, VT, FF, CR, SP and NBSP. *)
Definition isWhiteSpace (c : ascii) : bool :=
  let n := nat_of_ascii c in
  ((9 <=? n)%nat && (n <=? 13)%nat) || (n =? 32)%nat || (n =? 160)%nat.

Fixpoint trimStart (s : string) : string :=
  match s with
  | EmptyString => EmptyString
  | String c r => if isWhiteSpace c then trimStart r else s
  end.

Fixpoint trimEnd (s : string) : string :=
  match s with
  | EmptyString => EmptyString
  | String c r =>
      match trimEnd r with
      | EmptyString => if isWhiteSpace c then EmptyString else String c EmptyString
      | r' => String c r'
      end
  end.

(** String.prototype.trim *)
Definition trim (s : string) : string := trimEnd (trimStart s).

(** String.prototype.endsWith with the default end position: the last
    [length p] code units of [s] are compared with [p]. *)
Definition endsWith (s p : string) : bool :=
  (String.length p <=? String.length s)%nat &&
  String.eqb (substring (String.length s - String.length p) (String.length p) s) p.

(** [x || ''] for an optional string member: undefined and the empty
    string both give the empty string. *)
Definition or_empty (x : option string) : string :=
  match x with
  | Some t => if truthy t then t else EmptyString
  | None => EmptyString
  end.

(** The characters of a string, first to last. *)
Fixpoint chars (s : string) : list ascii :=
  match s with
  | EmptyString => []
  | String c r => c :: chars r
  end.

Definition in_range (lo hi n : nat) : bool := (lo <=? n)%nat && (n <=? hi)%nat.

(** Lower case of one code unit below 256: A-Z, and the accented capitals
    U+00C0 to U+00DE other than the multiplication sign, move up by 32. *)
Definition lower_char (c : ascii) : ascii :=
  let n := nat_of_ascii c in
  if in_range 65 90 n || (in_range 192 222 n && negb (n =? 215)%nat)
  then ascii_of_nat (n + 32)
  else c.

(** String.prototype.toLowerCase *)
Fixpoint toLowerCase (s : string) : string :=
  match s with
  | EmptyString => EmptyString
  | String c r => String (lower_char c) (toLowerCase r)
  end.

(** String.prototype.split with a separator of one character: the pieces
    between the occurrences of [sep]; the empty string gives one empty
    piece. *)
Fixpoint split (sep : ascii) (s : string) : list string :=
  match s with
  | EmptyString => [EmptyString]
  | String c r =>
      match split sep r with
      | [] => [String c EmptyString]
      | piece :: pieces =>
          if Ascii.eqb c sep then EmptyString :: piece :: pieces
          else String c piece :: pieces
      end
  end.

(** Array.prototype.pop as an expression: the last element, undefined for
    the empty array. *)
Definition pop (l : list string) : option string := last l.

(** Array.prototype.join *)
Fixpoint join (sep : string) (l : list string) : string :=
  match l with
  | [] => EmptyString
  | [x] => x
  | x :: rest => (x ++ sep ++ join sep rest)%string
  end.

(** [n] copies of the character [c]. *)
Fixpoint repeat_char (c : ascii) (n : nat) : string :=
  match n with
  | O => EmptyString
  | S n' => String c (repeat_char c n')
  end.

(** String.prototype.padStart with a pad string of one character. *)
Definition padStart (targetLength : nat) (pad : ascii) (s : string) : string :=
  (repeat_char pad (targetLength - String.length s) ++ s)%string.

(** Number.prototype.toString for a non-negative integer. *)
Definition Number_toString (n : nat) : string :=
  NilZero.string_of_uint (Nat.to_uint n).

End JsString.

(** ** Wire format *)

(** Message from backend (interface BackendMessage).  The cast after
    JSON.parse is unchecked, so the [type] member may be absent; [text] is
    optional in the interface. *)
Record BackendMessage := mkBackendMessage {
  type : option string;
  text : option string
}.

(** A decoder for the flat objects the backend sends, that is, objects whose
    members are all strings without escapes.  The hook itself is stated over
    an arbitrary JSON.parse; this decoder instantiates it on concrete
    payloads. *)
Module FlatJson.

Definition isJsonSpace (c : ascii) : bool :=
  let n := nat_of_ascii c in
  (n =? 32)%nat || (n =? 9)%nat || (n =? 10)%nat || (n =? 13)%nat.

Fixpoint skip_ws (s : string) : string :=
  match s with
  | EmptyString => EmptyString
  | String c r => if isJsonSpace c then skip_ws r else s
  end.

(** Skips blanks and consumes the character [c]. *)
Definition expect (c : nat) (s : string) : option string :=
  match skip_ws s with
  | String c' r => if (nat_of_ascii c' =? c)%nat then Some r else None
  | EmptyString => None
  end.

(** Reads the body of a string literal up to its closing quote; a
    backslash or a control character ends the attempt. *)
Fixpoint read_string (s : string) : option (string * string) :=
  match s with
  | EmptyString => None
  | String c r =>
      let n := nat_of_ascii c in
      if (n =? 34)%nat then Some (EmptyString, r)
      else if (n =? 92)%nat || (n <? 32)%nat then None
      else '(body, rest) ← read_string r; Some (String c body, rest)
  end.

Definition read_member (s : string) : option ((string * string) * string) :=
  r1 ← expect 34 s;
  '(k, r2) ← read_string r1;
  r3 ← expect 58 r2;
  r4 ← expect 34 r3;
  '(v, r5) ← read_string r4;
  Some ((k, v), r5).

Definition at_end (s : string) : bool :=
  match skip_ws s with
  | EmptyString => true
  | String _ _ => false
  end.

(** Members are accumulated most recent first, so that a lookup returns
    the last occurrence of a repeated key, as JSON.parse does. *)
Fixpoint read_members (fuel : nat) (s : string) (acc : list (string * string))
  : option (list (string * string)) :=
  match fuel with
  | O => None
  | S fuel' =>
      '(kv, r) ← read_member s;
      match skip_ws r with
      | String c r' =>
          let n := nat_of_ascii c in
          if (n =? 44)%nat then read_members fuel' r' (kv :: acc)
          else if (n =? 125)%nat && at_end r' then Some (kv :: acc)
          else None
      | EmptyString => None
      end
  end.

Definition read_object (s : string) : option (list (string * string)) :=
  r ← expect 123 s;
  match expect 125 r with
  | Some r' => if at_end r' then Some [] else None
  | None => read_members (String.length r) r []
  end.

Fixpoint member (k : string) (o : list (string * string)) : option string :=
  match o with
  | [] => None
  | (k', v) :: o' => if String.eqb k k' then Some v else member k o'
  end.

(** JSON.parse followed by the cast to BackendMessage; [None] stands for
    the SyntaxError that JSON.parse throws. *)
Definition parse (raw : string) : option BackendMessage :=
  o ← read_object raw;
  Some {| type := member "type" o; text := member "text" o |}.

(** The payload [{"type":ty,"text":tx}]. *)
Definition frame (ty tx : string) : string :=
  "{" ++ JsString.dquote ++ "type" ++ JsString.dquote ++ ":"
      ++ JsString.dquote ++ ty ++ JsString.dquote ++ ","
      ++ JsString.dquote ++ "text" ++ JsString.dquote ++ ":"
      ++ JsString.dquote ++ tx ++ JsString.dquote ++ "}".

(** The payload [{"type":ty}], with no text member. *)
Definition frame_no_text (ty : string) : string :=
  "{" ++ JsString.dquote ++ "type" ++ JsString.dquote ++ ":"
      ++ JsString.dquote ++ ty ++ JsString.dquote ++ "}".

End FlatJson.

(** ** The notes editor component

    MarkdownEditor (src/components/notes/MarkdownEditor.tsx, lines 11-244):
    the names of the exported files and the import handler. *)

Module NotesEditor.






Record EditorToast := mkEditorToast {
  toast_title : string;
  toast_description : string;
  toast_variant : string
}.

(** The part of the component the import handler acts on: the markdown
    text, the editing flag, the toasts raised and the number of clicks
    forwarded to the hidden file input. *)
Record Editor := mkEditor {
  markdown : string;
  isEditing : bool;
  toasts : list EditorToast;
  fileInputClicks : nat
}.

(** What [await openFile(...)] produced: an exception, null, or the content
    and the path of the chosen file. *)
Inductive OpenFileResult :=
| OpenThrows
| OpenNull
| OpenFile (content filePath : string).

(** [filePath.split('.').pop()?.toLowerCase()] *)
Definition extension_of (filePath : string) : option string :=
  option_map JsString.toLowerCase (JsString.pop (JsString.split "."%char filePath)).

(** [ext === tag] *)
Definition ext_is (ext : option string) (tag : string) : bool :=
  match ext with
  | Some e => String.eqb e tag
  | None => false
  end.

(** [if (fileInputRef.current) fileInputRef.current.click()]; [hasInput]
    tells whether the ref holds the input element. *)
Definition click_file_input (hasInput : bool) (st : Editor) : Editor :=
  if hasInput
  then mkEditor (markdown st) (isEditing st) (toasts st) (S (fileInputClicks st))
  else st.

Definition unsupported_toast : EditorToast :=
  mkEditorToast "Unsupported file type"
    "Please upload a .txt, .md, .docx, or .pdf file." "destructive".

(** Import handler using browser file utilities *)
Definition handleImport (hasInput : bool) (result : OpenFileResult) (st : Editor)
  : Editor :=
  match result with
  | OpenThrows => click_file_input hasInput st
  | OpenNull => st
  | OpenFile content filePath =>
      let ext := extension_of filePath in
      if ext_is ext "txt" || ext_is ext "md" then
        mkEditor content true (toasts st) (fileInputClicks st)
      else if ext_is ext "docx" || ext_is ext "pdf" then
        click_file_input hasInput st
      else
        mkEditor (markdown st) (isEditing st) (toasts st ++ [unsupported_toast])
          (fileInputClicks st)
  end.

End NotesEditor.

(** ** The meeting page

    MeetingPageContent (MarkdownEditor.tsx, lines 559-732) parses the
    sentences out of the transcript of the meeting context. *)

Module MeetingPage.

Definition newline : ascii := ascii_of_nat 10.

(** [fullTranscript ? fullTranscript.split('\n').filter(Boolean) : []] *)
Definition fullSentences (fullTranscript : string) : list string :=
  if JsString.truthy fullTranscript
  then List.filter JsString.truthy (JsString.split newline fullTranscript)
  else [].

(** A string without line feed. *)
Definition one_line (t : string) : bool :=
  forallb (fun c => negb (Ascii.eqb c newline)) (JsString.chars t).

End MeetingPage.

(** ** The call controls

    MeetingControls (src/unnamed/part_003) shows the duration of the call,
    a whole number of seconds. *)

Module MeetingControls.

(** formatTime *)
Definition formatTime (seconds : nat) : string :=
  let mins := seconds / 60 in
  let secs := seconds mod 60 in
  (JsString.padStart 2 "0"%char (JsString.Number_toString mins) ++ ":"
   ++ JsString.padStart 2 "0"%char (JsString.Number_toString secs))%string.

(** The number a string of decimal digits denotes. *)
Definition decimal_value (s : string) : option nat :=
  option_map Nat.of_uint (NilEmpty.uint_of_string s).

End MeetingControls.

(** ** The floating notes container

    DraggableContainer (src/components/floating-notes/DraggableContainer.tsx)
    with pixel coordinates taken as integers. *)

Module DraggableContainer.

Local Open Scope Z_scope.

Record Point := mkPoint { x : Z; y : Z }.
Record Size := mkSize { width : Z; height : Z }.

(** window.innerWidth and window.innerHeight *)
Record Window := mkWindow { innerWidth : Z; innerHeight : Z }.

(** The props the handlers read. *)
Record Props := mkProps {
  isExpanded : bool;
  expandedSize : Size;
  collapsedSize : Size
}.

Record Container := mkContainer {
  position : Point;
  isDragging : bool;
  dragOffset : Point
}.

(** [isExpanded ? expandedSize : collapsedSize] *)
Definition currentSize (p : Props) : Size :=
  if isExpanded p then expandedSize p else collapsedSize p.

(** handleResize, and the effect that runs when the widget is expanded or
    collapsed: the same updater of the position. *)
Definition handleResize (p : Props) (w : Window) (st : Container) : Container :=
  mkContainer
    (mkPoint (Z.min (x (position st)) (innerWidth w - width (currentSize p)))
             (Z.min (y (position st)) (innerHeight w - height (currentSize p))))
    (isDragging st) (dragOffset st).

(** handleMouseDown; [rect] is the top left corner that
    getBoundingClientRect reports, [None] while the ref is empty. *)
Definition handleMouseDown (client : Point) (rect : option Point) (st : Container)
  : Container :=
  match rect with
  | None => st
  | Some r =>
      mkContainer (position st) true
        (mkPoint (x client - x r) (y client - y r))
  end.

(** handleMouseMove *)
Definition handleMouseMove (p : Props) (w : Window) (client : Point) (st : Container)
  : Container :=
  if negb (isDragging st) then st
  else
    let newX := x client - x (dragOffset st) in
    let newY := y client - y (dragOffset st) in
    let maxX := innerWidth w - width (currentSize p) in
    let maxY := innerHeight w - height (currentSize p) in
    mkContainer
      (mkPoint (Z.max 0 (Z.min newX maxX)) (Z.max 0 (Z.min newY maxY)))
      (isDragging st) (dragOffset st).

(** handleMouseUp *)
Definition handleMouseUp (st : Container) : Container :=
  mkContainer (position st) false (dragOffset st).

End DraggableContainer.

(** ** The progress of a save

    useSaveProgress (src/components/meeting-end/useSaveProgress.ts): the
    updater that the 300 ms interval of handleSave applies to
    internalProgress, with the [saveProgress] that handleSave closed
    over. *)

Module SaveProgress.

Local Open Scope Z_scope.

Definition progress_tick (saveProgress : Z) (prev : Z) : Z :=
  if (prev <? 90) && (saveProgress =? 0) then prev + 5 else prev.

(** internalProgress after [n] ticks of the interval; handleSave sets it to
    10 before it starts the interval. *)
Definition progress_after (saveProgress : Z) (n : nat) : Z :=
  Nat.iter n (progress_tick saveProgress) 10.

End SaveProgress.

(** ** The stop sequences of the model settings

    ModelSettingsTab (src/components/profile/ModelSettingsTab.tsx, lines
    98-113).  The fields of the settings other than stopSequences are
    copied by the spread and kept abstract. *)

Module ModelSettingsTab.

Section StopSequences.

Variable OtherSettings : Type.

Record ModelSettings := mkModelSettings {
  stopSequences : list string;
  otherSettings : OtherSettings
}.

Record Tab := mkTab {
  settings : ModelSettings;
  stopSequence : string
}.

(** [settings.stopSequences.includes(stopSequence)] *)
Definition includes (l : list string) (x : string) : bool :=
  existsb (String.eqb x) l.

Definition addStopSequence (t : Tab) : Tab :=
  if JsString.truthy (stopSequence t)
     && negb (includes (stopSequences (settings t)) (stopSequence t))
  then mkTab (mkModelSettings (stopSequences (settings t) ++ [stopSequence t])
                (otherSettings (settings t)))
             EmptyString
  else t.

Definition removeStopSequence (sequence : string) (t : Tab) : Tab :=
  mkTab (mkModelSettings
           (List.filter (fun seq => negb (String.eqb seq sequence))
              (stopSequences (settings t)))
           (otherSettings (settings t)))
        (stopSequence t).

(** No stop sequence is empty and none occurs twice. *)
Definition sequences_ok (l : list string) : Prop :=
  List.NoDup l /\ ~ In EmptyString l.

End StopSequences.

End ModelSettingsTab.

(** ** The chat input

    ChatInput (src/components/ai-chat/ChatInput.tsx, lines 20-26). *)

Module ChatInput.

Record Input := mkInput {
  inputValue : string;
  sentMessages : list string
}.

(** handleSubmit; [sentMessages] records the calls of onSendMessage. *)
Definition handleSubmit (isClientAvailable : bool) (st : Input) : Input :=
  if JsString.truthy (JsString.trim (inputValue st)) && isClientAvailable
  then mkInput EmptyString (sentMessages st ++ [inputValue st])
  else st.

End ChatInput.

(** ** Emergency data of the save dialog

    useEmergencySave (src/components/meeting-end/useEmergencySave.ts): the
    beforeunload handler that stores the data of the open dialog, and the
    effect that offers to restore it when the dialog opens. *)

Module EmergencySave.

Local Open Scope Z_scope.

(** window.localStorage, a partial map from keys to strings. *)
Definition Storage := string -> option string.

Definition getItem (k : string) (st : Storage) : option string := st k.

Definition setItem (k v : string) (st : Storage) : Storage :=
  fun k' => if String.eqb k' k then Some v else st k'.

Definition removeItem (k : string) (st : Storage) : Storage :=
  fun k' => if String.eqb k' k then None else st k'.

Definition storage_key : string := "meeting_end_dialog_data".

(** The members that the restore effect reads from the parsed entry. *)
Record SavedData := mkSavedData {
  saved_title : option string;
  saved_transcript : option string;
  saved_summary : option string;
  saved_timestamp : option string
}.

Record DialogToast := mkDialogToast {
  toast_title : string;
  toast_description : string
}.

Record Props := mkProps {
  isOpen : bool;
  initialTitle : string;
  initialTranscript : string;
  initialSummary : string
}.

(** The state of the hook, the storage, and what it handed to its
    collaborators: toasts, console.error lines and the saves scheduled with
    setTimeout(..., 0), each with the title, transcript and summary passed
    to onSave. *)
Record Dialog := mkDialog {
  title : string;
  transcript : string;
  summary : string;
  autoSaveAttempted : bool;
  localStorage : Storage;
  toasts : list DialogToast;
  consoleErrors : list string;
  scheduledSaves : list (string * string * string)
}.

(** [a || b || c] with [a] an optional member. *)
Definition or3 (a : option string) (b c : string) : string :=
  match a with
  | Some t => if JsString.truthy t then t
              else if JsString.truthy b then b else c
  | None => if JsString.truthy b then b else c
  end.

(** [b || c] *)
Definition or2 (b c : string) : string :=
  if JsString.truthy b then b else c.

Definition oneHour : Z := 60 * 60 * 1000.

Section Effects.

(** JSON.parse of a stored entry; [None] when it throws or yields a value
    without members. *)
Variable JSON_parse : string -> option SavedData.

(** [new Date(data.timestamp).getTime()]; [None] stands for NaN. *)
Variable Date_getTime : option string -> option Z.

(** JSON.stringify of the object with title, transcript, summary and
    timestamp. *)
Variable JSON_stringify : string -> string -> string -> string -> string.

(** Reset data when dialog opens *)
Definition reset_effect (p : Props) (d : Dialog) : Dialog :=
  if isOpen p then
    mkDialog (or2 (initialTitle p) "New Meeting")
      (or2 (initialTranscript p) EmptyString)
      (or2 (initialSummary p) EmptyString)
      false (localStorage d) (toasts d) (consoleErrors d) (scheduledSaves d)
  else d.

(** Check for emergency data when dialog opens; [now] is the current time
    in milliseconds and [confirm] the answer window.confirm gives when it
    is asked. *)
Definition restore_effect (p : Props) (now : Z) (confirm : bool) (d : Dialog)
  : Dialog :=
  if isOpen p then
    match getItem storage_key (localStorage d) with
    | Some savedData =>
        if JsString.truthy savedData then
          match JSON_parse savedData with
          | Some data =>
              let restored :=
                mkDialog
                  (or3 (saved_title data) (initialTitle p) "New Meeting")
                  (or3 (saved_transcript data) (initialTranscript p) EmptyString)
                  (or3 (saved_summary data) (initialSummary p) EmptyString)
                  (autoSaveAttempted d) (localStorage d)
                  (toasts d ++ [mkDialogToast "Data restored"
                                  "Your unsaved meeting data has been restored."])
                  (consoleErrors d) (scheduledSaves d) in
              let d1 :=
                match Date_getTime (saved_timestamp data) with
                | Some savedTime =>
                    if now - savedTime <? oneHour
                    then (if confirm then restored else d)
                    else d
                | None => d
                end in
              (* Clear the saved data regardless of whether it was used *)
              mkDialog (title d1) (transcript d1) (summary d1) (autoSaveAttempted d1)
                (removeItem storage_key (localStorage d1)) (toasts d1)
                (consoleErrors d1) (scheduledSaves d1)
          | None =>
              mkDialog (title d) (transcript d) (summary d) (autoSaveAttempted d)
                (localStorage d) (toasts d)
                (consoleErrors d ++ ["Failed to restore emergency data:"])
                (scheduledSaves d)
          end
        else d
    | None => d
    end
  else d.

(** handleBeforeUnload; [timestamp] is [new Date().toISOString()] and
    [setItem_ok] tells whether localStorage.setItem returns rather than
    throws.  The second component is the value returned to the browser. *)
Definition handleBeforeUnload (p : Props) (timestamp : string) (setItem_ok : bool)
    (d : Dialog) : Dialog * option string :=
  if isOpen p && negb (autoSaveAttempted d) then
    let d1 :=
      if setItem_ok then
        mkDialog (title d) (transcript d) (summary d) true
          (setItem storage_key
             (JSON_stringify (title d) (transcript d) (summary d) timestamp)
             (localStorage d))
          (toasts d) (consoleErrors d)
          (scheduledSaves d ++ [(title d, transcript d, summary d)])
      else
        mkDialog (title d) (transcript d) (summary d) true
          (localStorage d) (toasts d)
          (consoleErrors d ++ ["Auto-save setup failed:"])
          (scheduledSaves d) in
    (d1, Some "You have unsaved meeting data. Are you sure you want to leave?")
  else (d, None).

End Effects.

End EmergencySave.

(** ** The hook *)

Module TranscriptionWS.

(** Connection status types *)
Inductive TranscriptionWSStatus := disconnected | connecting | connected | error.

Definition status_eqb (a b : TranscriptionWSStatus) : bool :=
  match a, b with
  | disconnected, disconnected | connecting, connecting
  | connected, connected | error, error => true
  | _, _ => false
  end.

(** WebSocket.readyState *)
Inductive ReadyState := CONNECTING | OPEN | CLOSING | CLOSED.

Definition isOPEN (r : ReadyState) : bool :=
  match r with OPEN => true | _ => false end.

(** Which of the two servers a socket talks to: ws://localhost:8011
    (Control) or ws://localhost:8012 (Data).  It fixes the handlers that
    [connect] attaches to the socket. *)
Inductive Endpoint := Control | Data.

(** A socket created by [connect]: the browser's ready state, the payloads
    handed to [send], and the value of [status] that its onclose handler
    captured. *)
Record WebSocket := mkWebSocket {
  endpoint : Endpoint;
  readyState : ReadyState;
  sent : list string;
  capturedStatus : TranscriptionWSStatus
}.

(** What a pending window.setTimeout runs when it fires: the fallback of
    the message handler, holding the [trimmedText] of the frame that armed
    it, or the resolution of the promise of [sendStopCommand], whose
    continuation closes both connections. *)
Inductive TimeoutCallback :=
| DebounceCallback (trimmedText : string)
| StopGraceCallback.

Record Timeout := mkTimeout {
  handle : positive;
  delay : N;
  callback : TimeoutCallback
}.

Record Toast := mkToast {
  title : string;
  description : string;
  variant : string
}.

(** Options of the hook; [onProcessSentence] tells whether the consumer
    supplied the callback.  The calls made to it are recorded in
    [processed]. *)
Record TranscriptionWebSocketOptions := mkOptions {
  onProcessSentence : bool
}.

Record Hook := mkHook {
  (* useState *)
  status : TranscriptionWSStatus;
  error_ : option string;
  realtimeText : string;
  fullSentences : list string;
  fullTranscript : string;
  (* useRef *)
  wsRef : option nat;
  controlWsRef : option nat;
  debounceTimerRef : option positive;
  (* the browser and the collaborators *)
  sockets : list WebSocket;
  timeouts : list Timeout;
  nextHandle : positive;
  processed : list string;
  toasts : list Toast;
  consoleErrors : list string
}.

(** The state of a freshly mounted hook. *)
Definition initial : Hook :=
  {| status := disconnected; error_ := None; realtimeText := EmptyString;
     fullSentences := []; fullTranscript := EmptyString;
     wsRef := None; controlWsRef := None; debounceTimerRef := None;
     sockets := []; timeouts := []; nextHandle := 1%positive;
     processed := []; toasts := []; consoleErrors := [] |}.

(** *** State setters and ref assignments *)

Definition setStatus (v : TranscriptionWSStatus) (s : Hook) : Hook :=
  mkHook v (error_ s) (realtimeText s) (fullSentences s) (fullTranscript s)
    (wsRef s) (controlWsRef s) (debounceTimerRef s)
    (sockets s) (timeouts s) (nextHandle s) (processed s) (toasts s) (consoleErrors s).

Definition setError (v : option string) (s : Hook) : Hook :=
  mkHook (status s) v (realtimeText s) (fullSentences s) (fullTranscript s)
    (wsRef s) (controlWsRef s) (debounceTimerRef s)
    (sockets s) (timeouts s) (nextHandle s) (processed s) (toasts s) (consoleErrors s).

Definition setRealtimeText (v : string) (s : Hook) : Hook :=
  mkHook (status s) (error_ s) v (fullSentences s) (fullTranscript s)
    (wsRef s) (controlWsRef s) (debounceTimerRef s)
    (sockets s) (timeouts s) (nextHandle s) (processed s) (toasts s) (consoleErrors s).

(** The setters of the transcript take an updater function, as the source
    calls them. *)
Definition setFullSentences (f : list string -> list string) (s : Hook) : Hook :=
  mkHook (status s) (error_ s) (realtimeText s) (f (fullSentences s)) (fullTranscript s)
    (wsRef s) (controlWsRef s) (debounceTimerRef s)
    (sockets s) (timeouts s) (nextHandle s) (processed s) (toasts s) (consoleErrors s).

Definition setFullTranscript (f : string -> string) (s : Hook) : Hook :=
  mkHook (status s) (error_ s) (realtimeText s) (fullSentences s) (f (fullTranscript s))
    (wsRef s) (controlWsRef s) (debounceTimerRef s)
    (sockets s) (timeouts s) (nextHandle s) (processed s) (toasts s) (consoleErrors s).

Definition set_wsRef (v : option nat) (s : Hook) : Hook :=
  mkHook (status s) (error_ s) (realtimeText s) (fullSentences s) (fullTranscript s)
    v (controlWsRef s) (debounceTimerRef s)
    (sockets s) (timeouts s) (nextHandle s) (processed s) (toasts s) (consoleErrors s).

Definition set_controlWsRef (v : option nat) (s : Hook) : Hook :=
  mkHook (status s) (error_ s) (realtimeText s) (fullSentences s) (fullTranscript s)
    (wsRef s) v (debounceTimerRef s)
    (sockets s) (timeouts s) (nextHandle s) (processed s) (toasts s) (consoleErrors s).

Definition set_debounceTimerRef (v : option positive) (s : Hook) : Hook :=
  mkHook (status s) (error_ s) (realtimeText s) (fullSentences s) (fullTranscript s)
    (wsRef s) (controlWsRef s) v
    (sockets s) (timeouts s) (nextHandle s) (processed s) (toasts s) (consoleErrors s).

Definition set_sockets (v : list WebSocket) (s : Hook) : Hook :=
  mkHook (status s) (error_ s) (realtimeText s) (fullSentences s) (fullTranscript s)
    (wsRef s) (controlWsRef s) (debounceTimerRef s)
    v (timeouts s) (nextHandle s) (processed s) (toasts s) (consoleErrors s).

Definition set_timeouts (v : list Timeout) (s : Hook) : Hook :=
  mkHook (status s) (error_ s) (realtimeText s) (fullSentences s) (fullTranscript s)
    (wsRef s) (controlWsRef s) (debounceTimerRef s)
    (sockets s) v (nextHandle s) (processed s) (toasts s) (consoleErrors s).

Definition set_nextHandle (v : positive) (s : Hook) : Hook :=
  mkHook (status s) (error_ s) (realtimeText s) (fullSentences s) (fullTranscript s)
    (wsRef s) (controlWsRef s) (debounceTimerRef s)
    (sockets s) (timeouts s) v (processed s) (toasts s) (consoleErrors s).

(** A call of the consumer callback with [sentence]. *)
Definition call_onProcessSentence (sentence : string) (s : Hook) : Hook :=
  mkHook (status s) (error_ s) (realtimeText s) (fullSentences s) (fullTranscript s)
    (wsRef s) (controlWsRef s) (debounceTimerRef s)
    (sockets s) (timeouts s) (nextHandle s) (processed s ++ [sentence]) (toasts s)
    (consoleErrors s).

Definition toast (t : Toast) (s : Hook) : Hook :=
  mkHook (status s) (error_ s) (realtimeText s) (fullSentences s) (fullTranscript s)
    (wsRef s) (controlWsRef s) (debounceTimerRef s)
    (sockets s) (timeouts s) (nextHandle s) (processed s) (toasts s ++ [t])
    (consoleErrors s).

Definition console_error (m : string) (s : Hook) : Hook :=
  mkHook (status s) (error_ s) (realtimeText s) (fullSentences s) (fullTranscript s)
    (wsRef s) (controlWsRef s) (debounceTimerRef s)
    (sockets s) (timeouts s) (nextHandle s) (processed s) (toasts s)
    (consoleErrors s ++ [m]).

(** *** Browser primitives *)

(** window.setTimeout: registers the callback and returns its handle. *)
Definition setTimeout (cb : TimeoutCallback) (ms : N) (s : Hook) : positive * Hook :=
  let h := nextHandle s in
  (h, set_nextHandle (Pos.succ h)
        (set_timeouts (timeouts s ++ [mkTimeout h ms cb]) s)).

(** window.clearTimeout: the timeout with that handle will not fire. *)
Definition clearTimeout (h : positive) (s : Hook) : Hook :=
  set_timeouts (List.filter (fun t => negb (Pos.eqb (handle t) h)) (timeouts s)) s.

(** new WebSocket(url): the socket starts CONNECTING; its handlers close
    over [captured], the [status] of the running [connect]. *)
Definition new_WebSocket (ep : Endpoint) (captured : TranscriptionWSStatus)
    (s : Hook) : nat * Hook :=
  (length (sockets s),
   set_sockets (sockets s ++ [mkWebSocket ep CONNECTING [] captured]) s).

(** The socket with identifier [i] is replaced by its image under [f]. *)
Definition update_socket (i : nat) (f : WebSocket -> WebSocket) (s : Hook) : Hook :=
  set_sockets (alter f i (sockets s)) s.

(** WebSocket.close(): starts the closing handshake unless the socket is
    already closing or closed. *)
Definition ws_close (i : nat) (s : Hook) : Hook :=
  update_socket i
    (fun w => match readyState w with
              | CLOSING | CLOSED => w
              | _ => mkWebSocket (endpoint w) CLOSING (sent w) (capturedStatus w)
              end) s.

(** WebSocket.send(data) on an open socket. *)
Definition ws_send (i : nat) (data : string) (s : Hook) : Hook :=
  update_socket i
    (fun w => mkWebSocket (endpoint w) (readyState w) (sent w ++ [data]) (capturedStatus w)) s.

(** [ref.current && ref.current.readyState === WebSocket.OPEN] *)
Definition ref_is_open (r : option nat) (s : Hook) : bool :=
  match r with
  | Some i =>
      match sockets s !! i with
      | Some w => isOPEN (readyState w)
      | None => false
      end
  | None => false
  end.

(** The state reached from [initial] by a call of connect and the open
    events of both sockets (see [connected_state_reached]). *)
Definition connected_state : Hook :=
  {| status := connected; error_ := None; realtimeText := EmptyString;
     fullSentences := []; fullTranscript := EmptyString;
     wsRef := Some 1; controlWsRef := Some 0; debounceTimerRef := None;
     sockets := [mkWebSocket Control OPEN [] disconnected;
                 mkWebSocket Data OPEN [] disconnected];
     timeouts := []; nextHandle := 1%positive;
     processed := []; toasts := []; consoleErrors := [] |}.

(** Whether the constructor call [new WebSocket(url)] returns or throws. *)
Inductive CtorOutcome := Constructed | Throws.

Section Handlers.

(** JSON.parse followed by the cast to BackendMessage; [None] when it
    throws. *)
Variable JSON_parse : string -> option BackendMessage.

(** The options the hook was called with. *)
Variable options : TranscriptionWebSocketOptions.

(** [data.type === tag] *)
Definition type_is (data : BackendMessage) (tag : string) : bool :=
  match type data with
  | Some t => String.eqb t tag
  | None => false
  end.

(** [data.type === 'completed' || data.type === 'fullSentence']: the
    golden transcript has arrived. *)
Definition is_golden (data : BackendMessage) : bool :=
  type_is data "completed" || type_is data "fullSentence".

(** The sentence appears complete:
    [trimmedText.length > 0 && ['.', '?', '!'].some(p => trimmedText.endsWith(p))] *)
Definition appears_complete (trimmedText : string) : bool :=
  (0 <? String.length trimmedText)%nat
  && existsb (fun p => JsString.endsWith trimmedText p) ["."; "?"; "!"].

(** The stop command, as sendStopCommand serializes it. *)
Definition stopCommand : string :=
  "{" ++ JsString.dquote ++ "type" ++ JsString.dquote ++ ":"
      ++ JsString.dquote ++ "command" ++ JsString.dquote ++ ","
      ++ JsString.dquote ++ "command" ++ JsString.dquote ++ ":"
      ++ JsString.dquote ++ "stop" ++ JsString.dquote ++ "}".

(** Send stop command to control server.  The boolean tells whether the
    returned promise is still pending, that is, whether it waits for the
    100 ms timeout; otherwise it is already resolved. *)
Definition sendStopCommand (s : Hook) : bool * Hook :=
  match controlWsRef s with
  | Some c =>
      if ref_is_open (Some c) s then
        let s := ws_send c stopCommand s in
        let '(_, s) := setTimeout StopGraceCallback 100 s in
        (true, s)
      else (false, s)
  | None => (false, s)
  end.

(** controlWs.onopen: nothing but a log line. *)
Definition controlWs_onopen (s : Hook) : Hook := s.

(** controlWs.onclose: [status] is the value the closure captured. *)
Definition controlWs_onclose (captured : TranscriptionWSStatus) (s : Hook) : Hook :=
  if negb (status_eqb captured disconnected) then setStatus disconnected s else s.

(** controlWs.onerror *)
Definition controlWs_onerror (s : Hook) : Hook :=
  let s := console_error "TranscriptionWebSocket: Control server error:" s in
  let s := setStatus error s in
  let s := setError (Some "Failed to connect to transcription control service.") s in
  toast (mkToast "Connection Error"
           "Failed to connect to the transcription control service. Please try again."
           "destructive") s.

(** ws.onclose: [status] is the value the closure captured. *)
Definition ws_onclose (captured : TranscriptionWSStatus) (s : Hook) : Hook :=
  if negb (status_eqb captured disconnected) then setStatus disconnected s else s.

(** ws.onopen *)
Definition ws_onopen (s : Hook) : Hook := setStatus connected s.

(** ws.onerror *)
Definition ws_onerror (s : Hook) : Hook :=
  let s := console_error "TranscriptionWebSocket: Data server error:" s in
  let s := setStatus error s in
  let s := setError (Some "Failed to connect to transcription service.") s in
  toast (mkToast "Connection Error"
           "Failed to connect to the transcription service. Please try again."
           "destructive") s.

(** The callback handed to window.setTimeout by the realtime branch. *)
Definition debounce_callback (trimmedText : string) (s : Hook) : Hook :=
  let s := if onProcessSentence options
           then call_onProcessSentence trimmedText s else s in
  set_debounceTimerRef None s.

(** The body of the try block of ws.onmessage, after JSON.parse. *)
Definition onmessage_try (data : BackendMessage) (s : Hook) : Hook :=
  if is_golden data then
    (* 1. Clear any existing fallback timer *)
    let s := match debounceTimerRef s with
             | Some h => set_debounceTimerRef None (clearTimeout h s)
             | None => s
             end in
    (* 2. Process the high-quality sentence immediately *)
    let newSentence := JsString.or_empty (text data) in
    let s := setFullSentences (fun prev => prev ++ [newSentence]) s in
    let s := setFullTranscript (fun prev => (prev ++ " " ++ newSentence)%string) s in
    if onProcessSentence options && JsString.truthy newSentence
    then call_onProcessSentence newSentence s
    else s
  else if type_is data "realtime" then
    let currentText := JsString.or_empty (text data) in
    let s := setRealtimeText currentText s in
    (* 3. Set a fallback timer if the sentence appears complete *)
    let trimmedText := JsString.trim currentText in
    if appears_complete trimmedText then
      match debounceTimerRef s with
      | None =>
          let '(h, s) := setTimeout (DebounceCallback trimmedText) 750 s in
          set_debounceTimerRef (Some h) s
      | Some _ => s
      end
    else s
  else s.

(** Function to normalize sentences *)
Definition normalizeSentence (sentence : string) : string :=
  if JsString.truthy sentence then JsString.trim sentence else EmptyString.

(** Trigger the sentence processing.  The hook defines this callback but no
    handler calls it and it is not returned to the consumer. *)
Definition triggerProcessing (sentence : string) (s : Hook) : Hook :=
  if onProcessSentence options then
    let normalizedSentence := normalizeSentence sentence in
    if JsString.truthy normalizedSentence
    then call_onProcessSentence normalizedSentence s
    else s
  else s.

(** ws.onmessage *)
Definition ws_onmessage (raw : string) (s : Hook) : Hook :=
  match JSON_parse raw with
  | Some data => onmessage_try data s
  | None => console_error "TranscriptionWebSocket: Error parsing message:" s
  end.

(** Connect to WebSocket server *)
Definition connect (control data : CtorOutcome) (s : Hook) : Hook :=
  if ref_is_open (wsRef s) s then s
  else if ref_is_open (controlWsRef s) s then s
  else
    let captured := status s in
    let s := setStatus connecting s in
    let s := setError None s in
    match control with
    | Throws =>
        let s := console_error
                   "TranscriptionWebSocket: Error connecting to Control server:" s in
        let s := setStatus error s in
        let s := setError (Some "Failed to connect to transcription control service") s in
        toast (mkToast "Connection Error"
                 "Failed to connect to the control server. Please try again."
                 "destructive") s
    | Constructed =>
        let '(controlWs, s) := new_WebSocket Control captured s in
        let s := set_controlWsRef (Some controlWs) s in
        match data with
        | Throws =>
            let s := console_error
                       "TranscriptionWebSocket: Error connecting to Data server:" s in
            let s := setStatus error s in
            let s := setError (Some "Failed to connect to transcription service") s in
            toast (mkToast "Connection Error"
                     "Failed to connect to the data server. Please try again."
                     "destructive") s
        | Constructed =>
            let '(ws, s) := new_WebSocket Data captured s in
            set_wsRef (Some ws) s
        end
    end.

(** Close WebSocket connections *)
Definition disconnect (s : Hook) : Hook :=
  let s := match controlWsRef s with
           | Some c => set_controlWsRef None (ws_close c s)
           | None => s
           end in
  let s := match wsRef s with
           | Some d => set_wsRef None (ws_close d s)
           | None => s
           end in
  (* Clear any pending timers on disconnect *)
  let s := match debounceTimerRef s with
           | Some h => set_debounceTimerRef None (clearTimeout h s)
           | None => s
           end in
  setStatus disconnected s.

(** The continuation that the unmount cleanup chains on
    [sendStopCommand()]: close both connections. *)
Definition cleanup_then (s : Hook) : Hook :=
  let s := match controlWsRef s with
           | Some c => set_controlWsRef None (ws_close c s)
           | None => s
           end in
  match wsRef s with
  | Some d => set_wsRef None (ws_close d s)
  | None => s
  end.

(** Cleanup on unmount: when the promise of [sendStopCommand] is already
    resolved the continuation runs before any other event; otherwise it
    runs when the 100 ms timeout fires. *)
Definition unmount_cleanup (s : Hook) : Hook :=
  let '(pending, s) := sendStopCommand s in
  if pending then s else cleanup_then s.

(** *** The event loop *)

Inductive Event :=
| CallConnect (control data : CtorOutcome)
| CallDisconnect
| Unmount
| OnOpen (i : nat)
| OnClose (i : nat)
| OnError (i : nat)
| OnMessage (i : nat) (raw : string)
| TimeoutFires (h : positive).

Definition set_readyState (r : ReadyState) (w : WebSocket) : WebSocket :=
  mkWebSocket (endpoint w) r (sent w) (capturedStatus w).

Definition run_timeout (cb : TimeoutCallback) (s : Hook) : Hook :=
  match cb with
  | DebounceCallback trimmedText => debounce_callback trimmedText s
  | StopGraceCallback => cleanup_then s
  end.

(** The browser delivers an event to the handler that [connect]
    attached: open only to a connecting socket, message only to an open
    one, nothing to a closed one; a timeout fires once, and only while
    it is still registered. *)
Definition dispatch (ev : Event) (s : Hook) : Hook :=
  match ev with
  | CallConnect control data => connect control data s
  | CallDisconnect => disconnect s
  | Unmount => unmount_cleanup s
  | OnOpen i =>
      match sockets s !! i with
      | Some w =>
          match readyState w with
          | CONNECTING =>
              let s := update_socket i (set_readyState OPEN) s in
              match endpoint w with
              | Control => controlWs_onopen s
              | Data => ws_onopen s
              end
          | _ => s
          end
      | None => s
      end
  | OnClose i =>
      match sockets s !! i with
      | Some w =>
          match readyState w with
          | CLOSED => s
          | _ =>
              let s := update_socket i (set_readyState CLOSED) s in
              match endpoint w with
              | Control => controlWs_onclose (capturedStatus w) s
              | Data => ws_onclose (capturedStatus w) s
              end
          end
      | None => s
      end
  | OnError i =>
      match sockets s !! i with
      | Some w =>
          match readyState w with
          | CLOSED => s
          | _ => match endpoint w with
                 | Control => controlWs_onerror s
                 | Data => ws_onerror s
                 end
          end
      | None => s
      end
  | OnMessage i raw =>
      match sockets s !! i with
      | Some w =>
          match endpoint w, readyState w with
          | Data, OPEN => ws_onmessage raw s
          | _, _ => s
          end
      | None => s
      end
  | TimeoutFires h =>
      match List.find (fun t => Pos.eqb (handle t) h) (timeouts s) with
      | Some t => run_timeout (callback t) (clearTimeout h s)
      | None => s
      end
  end.

(** Events are processed one at a time, in delivery order. *)
Definition run (evs : list Event) (s : Hook) : Hook :=
  fold_left (fun s ev => dispatch ev s) evs s.

(** *** Auxiliary notions for the statements *)

(** Every pending timeout has a handle below the next one to be handed
    out. *)
Definition handles_fresh (s : Hook) : bool :=
  forallb (fun t => Pos.ltb (handle t) (nextHandle s)) (timeouts s).

(** The frames of a list are processed in order by the try block. *)
Definition process_frames (frames : list BackendMessage) (s : Hook) : Hook :=
  fold_left (fun s data => onmessage_try data s) frames s.

(** The sentence a frame carries: [data.text || '']. *)
Definition sentence_of (data : BackendMessage) : string :=
  JsString.or_empty (text data).

(** A realtime frame whose trimmed text appears complete. *)
Definition arms_timer (data : BackendMessage) : bool :=
  appears_complete (JsString.trim (sentence_of data)).

(** [' ' + s1 + ' ' + ... + ' ' + sn] *)
Fixpoint spaced (sentences : list string) : string :=
  match sentences with
  | [] => EmptyString
  | t :: rest => (" " ++ t ++ spaced rest)%string
  end.

(** The live preview after a run of realtime frames: the text of the
    last one, if any. *)
Definition preview (frames : list BackendMessage) (s : Hook) : Hook :=
  match last frames with
  | Some data => setRealtimeText (sentence_of data) s
  | None => s
  end.

(** Arming of the fallback timer, as the realtime branch does it. *)
Definition arm (trimmedText : string) (s : Hook) : Hook :=
  let '(h, s) := setTimeout (DebounceCallback trimmedText) 750 s in
  set_debounceTimerRef (Some h) s.

(** A timeout registered by the realtime branch. *)
Definition is_debounce (t : Timeout) : bool :=
  match callback t with
  | DebounceCallback _ => true
  | StopGraceCallback => false
  end.

(** A timeout is accounted for by the timer reference [r] when it is not a
    fallback timeout or [r] holds its handle. *)
Definition referenced_by (r : option positive) (t : Timeout) : bool :=
  implb (is_debounce t)
        match r with
        | Some h => Pos.eqb (handle t) h
        | None => false
        end.

(** Every pending fallback timeout is the one debounceTimerRef refers to;
    in particular none is pending while the reference is null. *)
Definition debounce_referenced (s : Hook) : bool :=
  forallb (referenced_by (debounceTimerRef s)) (timeouts s).

(** Whenever the status is 'error' an error string is set. *)
Definition error_has_message (s : Hook) : bool :=
  implb (status_eqb (status s) error)
        match error_ s with
        | Some _ => true
        | None => false
        end.

(** The joined transcript is the sequence of sentences, each after one
    space. *)
Definition transcript_joined (s : Hook) : Prop :=
  fullTranscript s = spaced (fullSentences s).

(** What the hook has handed to [send] on a socket: nothing on a data
    socket, stop commands only on a control socket. *)
Definition only_stop_sent (w : WebSocket) : Prop :=
  match endpoint w with
  | Control => Forall (fun payload => payload = stopCommand) (sent w)
  | Data => sent w = []
  end.

(** Each handle refers to an existing socket of its own endpoint. *)
Definition refs_typed_at (cref dref : option nat) (l : list WebSocket) : Prop :=
  (forall c, cref = Some c -> exists w, l !! c = Some w /\ endpoint w = Control)
  /\ (forall d, dref = Some d -> exists w, l !! d = Some w /\ endpoint w = Data).

Definition refs_typed (s : Hook) : Prop :=
  refs_typed_at (controlWsRef s) (wsRef s) (sockets s).

Definition sockets_wf_at (cref dref : option nat) (l : list WebSocket) : Prop :=
  refs_typed_at cref dref l /\ Forall only_stop_sent l.

Definition sockets_wf (s : Hook) : Prop :=
  sockets_wf_at (controlWsRef s) (wsRef s) (sockets s).

(** An update of a socket that keeps its endpoint and its sent payloads. *)
Definition keeps_payloads (f : WebSocket -> WebSocket) : Prop :=
  forall w, endpoint (f w) = endpoint w /\ sent (f w) = sent w.

(** There is a pending fallback timeout only while the timer reference is
    set, and then there is one. *)
Definition fallback_count_ok (s : Hook) : Prop :=
  length (List.filter is_debounce (timeouts s))
  <= match debounceTimerRef s with
     | Some _ => 1
     | None => 0
     end.

(** *** Basic facts *)

Lemma append_assoc (a b c : string) : ((a ++ b) ++ c = a ++ (b ++ c))%string.
Proof. induction a as [|x a IH]; simpl; [reflexivity | now rewrite IH]. Qed.

Lemma append_empty_r (a : string) : (a ++ EmptyString)%string = a.
Proof. induction a as [|x a IH]; simpl; [reflexivity | now rewrite IH]. Qed.

(** A golden frame is not taken for a realtime one, and conversely. *)
Lemma golden_not_realtime (data : BackendMessage) :
  is_golden data = true -> type_is data "realtime" = false.
Proof.
  unfold is_golden, type_is. destruct (type data) as [t|]; [|discriminate].
  destruct (String.eqb_spec t "completed") as [->|_]; [reflexivity|].
  destruct (String.eqb_spec t "fullSentence") as [->|_]; [reflexivity|discriminate].
Qed.

(** What the golden branch does to the transcript and to the consumer. *)
Lemma golden_effect (data : BackendMessage) (s : Hook) :
  is_golden data = true ->
  fullSentences (onmessage_try data s) = fullSentences s ++ [sentence_of data]
  /\ fullTranscript (onmessage_try data s)
     = (fullTranscript s ++ " " ++ sentence_of data)%string
  /\ processed (onmessage_try data s)
     = processed s ++ (if onProcessSentence options && JsString.truthy (sentence_of data)
                       then [sentence_of data] else [])
  /\ realtimeText (onmessage_try data s) = realtimeText s
  /\ debounceTimerRef (onmessage_try data s) = None.
Proof.
  intros Hg. unfold onmessage_try, sentence_of. rewrite Hg.
  destruct (onProcessSentence options && JsString.truthy (JsString.or_empty (text data)));
    destruct (debounceTimerRef s) eqn:E; simpl;
    rewrite ?app_nil_r; repeat split; auto.
Qed.

Lemma process_frames_cons (data : BackendMessage) (frames : list BackendMessage) (s : Hook) :
  process_frames (data :: frames) s = process_frames frames (onmessage_try data s).
Proof. reflexivity. Qed.

Lemma fullTranscript_process_golden (frames : list BackendMessage) :
  forallb is_golden frames = true ->
  forall s, fullTranscript (process_frames frames s)
            = (fullTranscript s ++ spaced (map sentence_of frames))%string.
Proof.
  induction frames as [|data frames IH]; intros Hall s.
  - simpl. now rewrite append_empty_r.
  - simpl in Hall. apply andb_true_iff in Hall as [Hg Hrest].
    rewrite process_frames_cons, (IH Hrest).
    destruct (golden_effect data s Hg) as (_ & -> & _).
    simpl. now rewrite !append_assoc.
Qed.

(** The handlers outside ws.onmessage never write realtimeText. *)
Lemma realtimeText_cleanup_then (s : Hook) :
  realtimeText (cleanup_then s) = realtimeText s.
Proof.
  unfold cleanup_then, ws_close, update_socket.
  destruct (controlWsRef s); simpl; destruct (wsRef s); reflexivity.
Qed.

Lemma realtimeText_disconnect (s : Hook) :
  realtimeText (disconnect s) = realtimeText s.
Proof.
  unfold disconnect, ws_close, update_socket.
  destruct (controlWsRef s); simpl; destruct (wsRef s); simpl;
    destruct (debounceTimerRef s); reflexivity.
Qed.

Lemma realtimeText_unmount_cleanup (s : Hook) :
  realtimeText (unmount_cleanup s) = realtimeText s.
Proof.
  unfold unmount_cleanup, sendStopCommand.
  destruct (controlWsRef s) as [c|] eqn:E; [|apply realtimeText_cleanup_then].
  destruct (ref_is_open (Some c) s); [reflexivity|apply realtimeText_cleanup_then].
Qed.

Lemma realtimeText_connect (c d : CtorOutcome) (s : Hook) :
  realtimeText (connect c d s) = realtimeText s.
Proof.
  unfold connect.
  destruct (ref_is_open (wsRef s) s); [reflexivity|].
  destruct (ref_is_open (controlWsRef s) s); [reflexivity|].
  destruct c, d; reflexivity.
Qed.

(** *** Pending timeouts *)

Lemma find_cleared (h : positive) (l : list Timeout) :
  List.find (fun t => Pos.eqb (handle t) h)
    (List.filter (fun t => negb (Pos.eqb (handle t) h)) l) = None.
Proof.
  induction l as [|t l IH]; simpl; [reflexivity|].
  destruct (Pos.eqb (handle t) h) eqn:E; simpl; [exact IH|].
  now rewrite E.
Qed.

Lemma find_fresh (t : Timeout) (l : list Timeout) :
  forallb (fun u => Pos.ltb (handle u) (handle t)) l = true ->
  List.find (fun u => Pos.eqb (handle u) (handle t)) (l ++ [t]) = Some t.
Proof.
  induction l as [|u l IH]; simpl; intros H.
  - now rewrite Pos.eqb_refl.
  - apply andb_true_iff in H as [Hu Hl]. apply Pos.ltb_lt in Hu.
    destruct (Pos.eqb_spec (handle u) (handle t)) as [E|_]; [lia|auto].
Qed.

Lemma filter_fresh (t : Timeout) (l : list Timeout) :
  forallb (fun u => Pos.ltb (handle u) (handle t)) l = true ->
  List.filter (fun u => negb (Pos.eqb (handle u) (handle t))) (l ++ [t]) = l.
Proof.
  induction l as [|u l IH]; simpl; intros H.
  - now rewrite Pos.eqb_refl.
  - apply andb_true_iff in H as [Hu Hl]. apply Pos.ltb_lt in Hu.
    destruct (Pos.eqb_spec (handle u) (handle t)) as [E|_]; [lia|].
    simpl. now rewrite IH.
Qed.

(** A timeout that was cleared does not fire. *)
Lemma cleared_timeout_is_inert (h : positive) (s : Hook) :
  List.find (fun t => Pos.eqb (handle t) h) (timeouts s) = None ->
  dispatch (TimeoutFires h) s = s.
Proof. intros H. simpl. now rewrite H. Qed.

(** *** The realtime branch *)

Lemma realtime_not_golden (data : BackendMessage) :
  type_is data "realtime" = true -> is_golden data = false.
Proof.
  unfold is_golden, type_is. destruct (type data) as [t|]; [|discriminate].
  destruct (String.eqb_spec t "realtime") as [->|_]; [reflexivity|discriminate].
Qed.

Lemma realtime_while_armed (data : BackendMessage) (s : Hook) (h : positive) :
  type_is data "realtime" = true -> debounceTimerRef s = Some h ->
  onmessage_try data s = setRealtimeText (sentence_of data) s.
Proof.
  intros Hr Hh. unfold onmessage_try.
  rewrite (realtime_not_golden data Hr), Hr. fold (sentence_of data).
  destruct (appears_complete _); [|reflexivity].
  simpl. now rewrite Hh.
Qed.

Lemma realtime_incomplete (data : BackendMessage) (s : Hook) :
  type_is data "realtime" = true -> arms_timer data = false ->
  onmessage_try data s = setRealtimeText (sentence_of data) s.
Proof.
  intros Hr Ha. unfold onmessage_try.
  rewrite (realtime_not_golden data Hr), Hr. fold (sentence_of data).
  unfold arms_timer in Ha. now rewrite Ha.
Qed.

Lemma realtime_arms (data : BackendMessage) (s : Hook) :
  type_is data "realtime" = true -> arms_timer data = true ->
  debounceTimerRef s = None ->
  onmessage_try data s
  = arm (JsString.trim (sentence_of data)) (setRealtimeText (sentence_of data) s).
Proof.
  intros Hr Ha Hn. unfold onmessage_try.
  rewrite (realtime_not_golden data Hr), Hr. fold (sentence_of data).
  unfold arms_timer in Ha. rewrite Ha. simpl. now rewrite Hn.
Qed.

Lemma preview_cons (data : BackendMessage) (frames : list BackendMessage) (s : Hook) :
  preview frames (setRealtimeText (sentence_of data) s) = preview (data :: frames) s.
Proof.
  unfold preview. rewrite last_cons. destruct (last frames); reflexivity.
Qed.

Lemma preview_arm (t : string) (frames : list BackendMessage) (s : Hook) :
  preview frames (arm t s) = arm t (preview frames s).
Proof. unfold preview. destruct (last frames); reflexivity. Qed.

(** While a timer is pending, realtime frames only replace the preview:
    the timer is neither restarted nor re-armed. *)
Lemma process_realtime_armed (frames : list BackendMessage) :
  forallb (fun d => type_is d "realtime") frames = true ->
  forall s h, debounceTimerRef s = Some h ->
  process_frames frames s = preview frames s.
Proof.
  induction frames as [|data frames IH]; intros Hall s h Hh; [reflexivity|].
  simpl in Hall. apply andb_true_iff in Hall as [Hr Hrest].
  rewrite process_frames_cons, (realtime_while_armed data s h Hr Hh).
  rewrite (IH Hrest _ h); [apply preview_cons | exact Hh].
Qed.

(** From a state without pending timer, the first frame that appears
    complete arms the timer, with its own trimmed text. *)
Lemma process_realtime_idle (frames : list BackendMessage) :
  forallb (fun d => type_is d "realtime") frames = true ->
  forall s, debounceTimerRef s = None ->
  process_frames frames s
  = match List.find arms_timer frames with
    | Some armer => arm (JsString.trim (sentence_of armer)) (preview frames s)
    | None => preview frames s
    end.
Proof.
  induction frames as [|data frames IH]; intros Hall s Hn; [reflexivity|].
  simpl in Hall. apply andb_true_iff in Hall as [Hr Hrest].
  rewrite process_frames_cons. simpl List.find.
  destruct (arms_timer data) eqn:Ha.
  - rewrite (realtime_arms data s Hr Ha Hn).
    rewrite (process_realtime_armed frames Hrest _ (nextHandle s)); [|reflexivity].
    now rewrite preview_arm, preview_cons.
  - rewrite (realtime_incomplete data s Hr Ha).
    rewrite (IH Hrest); [|exact Hn].
    now rewrite preview_cons.
Qed.

Lemma find_last_arms (front : list BackendMessage) (lastf : BackendMessage) :
  arms_timer lastf = true ->
  exists armer, List.find arms_timer (front ++ [lastf]) = Some armer
                /\ arms_timer armer = true.
Proof.
  intros Ha. induction front as [|d front IH]; simpl.
  - rewrite Ha. eauto.
  - destruct (arms_timer d) eqn:E; eauto.
Qed.

(** When the timeout armed by [arm] fires, the consumer receives the
    text captured at arming time and the handle is given up. *)
Lemma arm_then_fire (t : string) (s : Hook) :
  handles_fresh s = true ->
  dispatch (TimeoutFires (nextHandle s)) (arm t s)
  = debounce_callback t (set_nextHandle (Pos.succ (nextHandle s)) s).
Proof.
  intros Hf. unfold handles_fresh in Hf.
  pose (new := mkTimeout (nextHandle s) 750 (DebounceCallback t)).
  assert (Hfind : List.find (fun u => Pos.eqb (handle u) (nextHandle s))
                    (timeouts s ++ [new]) = Some new)
    by exact (find_fresh new (timeouts s) Hf).
  assert (Hfilter : List.filter (fun u => negb (Pos.eqb (handle u) (nextHandle s)))
                      (timeouts s ++ [new]) = timeouts s)
    by exact (filter_fresh new (timeouts s) Hf).
  unfold dispatch, arm, setTimeout, clearTimeout. simpl.
  fold new. rewrite Hfind, Hfilter. simpl.
  unfold debounce_callback. destruct (onProcessSentence options), s; reflexivity.
Qed.

(** *** The message router *)

(** C8. A payload that JSON.parse rejects is caught and logged with
    console.error, and nothing else changes: status, error string,
    transcript, provisional text, pending timer, consumer calls and
    toasts stay as they were.  A parsed frame whose type is neither
    'realtime' nor one of the two golden tags leaves the state as it is.
    The tags 'completed' and 'fullSentence' are handled identically. *)
Theorem malformed_or_unknown_frame_dropped :
  (forall raw s, JSON_parse raw = None ->
     let s' := ws_onmessage raw s in
     status s' = status s /\ error_ s' = error_ s
     /\ fullSentences s' = fullSentences s /\ fullTranscript s' = fullTranscript s
     /\ realtimeText s' = realtimeText s
     /\ debounceTimerRef s' = debounceTimerRef s /\ timeouts s' = timeouts s
     /\ processed s' = processed s /\ toasts s' = toasts s
     /\ sockets s' = sockets s
     /\ consoleErrors s'
        = consoleErrors s ++ ["TranscriptionWebSocket: Error parsing message:"])
  /\ (forall raw data s, JSON_parse raw = Some data ->
        is_golden data = false -> type_is data "realtime" = false ->
        ws_onmessage raw s = s)
  /\ (forall tx s,
        onmessage_try (mkBackendMessage (Some "completed") tx) s
        = onmessage_try (mkBackendMessage (Some "fullSentence") tx) s).
Proof.
  split; [|split].
  - intros raw s Hparse. unfold ws_onmessage. rewrite Hparse.
    simpl. repeat split; reflexivity.
  - intros raw data s Hparse Hg Hr. unfold ws_onmessage. rewrite Hparse.
    unfold onmessage_try. now rewrite Hg, Hr.
  - intros tx s. reflexivity.
Qed.

(** C10. A golden frame ('completed' or 'fullSentence') leaves
    realtimeText as it was; more generally the only event that changes
    realtimeText is a message on the data connection that parses to a
    'realtime' frame. *)
Theorem golden_frame_keeps_realtimeText :
  (forall data s, is_golden data = true ->
     realtimeText (onmessage_try data s) = realtimeText s)
  /\ (forall ev s, realtimeText (dispatch ev s) <> realtimeText s ->
        exists i raw data,
          ev = OnMessage i raw /\ JSON_parse raw = Some data
          /\ type_is data "realtime" = true /\ is_golden data = false).
Proof.
  split.
  - intros data s Hg. now destruct (golden_effect data s Hg) as (_ & _ & _ & H & _).
  - intros ev s Hne. destruct ev as [c d| | |i|i|i|i raw|h]; simpl in Hne.
    + exfalso. apply Hne. apply realtimeText_connect.
    + exfalso. apply Hne. apply realtimeText_disconnect.
    + exfalso. apply Hne. apply realtimeText_unmount_cleanup.
    + exfalso. apply Hne. destruct (sockets s !! i) as [w|]; [|reflexivity].
      destruct (readyState w), (endpoint w); reflexivity.
    + exfalso. apply Hne. destruct (sockets s !! i) as [w|]; [|reflexivity].
      unfold ws_onclose, controlWs_onclose.
      destruct (readyState w), (endpoint w),
        (status_eqb (capturedStatus w) disconnected); reflexivity.
    + exfalso. apply Hne. destruct (sockets s !! i) as [w|]; [|reflexivity].
      destruct (readyState w), (endpoint w); reflexivity.
    + destruct (sockets s !! i) as [w|]; [|contradiction].
      destruct (endpoint w); [contradiction|].
      destruct (readyState w); try contradiction.
      unfold ws_onmessage in Hne.
      destruct (JSON_parse raw) as [data|] eqn:Hp; [|now simpl in Hne].
      destruct (is_golden data) eqn:Hg.
      * exfalso. apply Hne.
        now destruct (golden_effect data s Hg) as (_ & _ & _ & H & _).
      * destruct (type_is data "realtime") eqn:Hr.
        -- exists i, raw, data. auto.
        -- exfalso. apply Hne. unfold onmessage_try. now rewrite Hg, Hr.
    + exfalso. apply Hne.
      destruct (List.find (fun t => Pos.eqb (handle t) h) (timeouts s)) as [t|]; [|reflexivity].
      unfold run_timeout, debounce_callback.
      destruct (callback t); simpl.
      * destruct (onProcessSentence options); reflexivity.
      * apply (realtimeText_cleanup_then (clearTimeout h s)).
Qed.

(** *** The golden branch and the fallback timer *)

(** X10. Provisional frames followed by a golden frame, with no timer
    firing in between: the golden sentence is the only emission, and the
    timer that a provisional frame may have armed is cancelled, so the
    pending timeouts are as before the utterance. *)
Lemma provisional_then_golden_emits_once
    (frames : list BackendMessage) (data : BackendMessage) (s : Hook) :
  forallb (fun d => type_is d "realtime") frames = true ->
  is_golden data = true ->
  debounceTimerRef s = None ->
  handles_fresh s = true ->
  let s' := onmessage_try data (process_frames frames s) in
  processed s'
  = processed s ++ (if onProcessSentence options && JsString.truthy (sentence_of data)
                    then [sentence_of data] else [])
  /\ timeouts s' = timeouts s
  /\ debounceTimerRef s' = None.
Proof.
  intros Hall Hg Hn Hf s'.
  destruct (golden_effect data (process_frames frames s) Hg) as (_ & _ & Hp & _ & Hd).
  assert (Hprev : forall x, processed (preview frames x) = processed x
                            /\ timeouts (preview frames x) = timeouts x
                            /\ debounceTimerRef (preview frames x) = debounceTimerRef x
                            /\ nextHandle (preview frames x) = nextHandle x).
  { intros x. unfold preview. destruct (last frames); repeat split; reflexivity. }
  split; [|split; [|exact Hd]].
  - subst s'. rewrite Hp. f_equal.
    rewrite (process_realtime_idle frames Hall s Hn).
    destruct (List.find arms_timer frames); simpl; apply Hprev.
  - subst s'. unfold onmessage_try. rewrite Hg.
    rewrite (process_realtime_idle frames Hall s Hn).
    destruct (Hprev s) as (_ & Ht & Hr & Hh).
    destruct (List.find arms_timer frames) as [armer|].
    + unfold arm, setTimeout. simpl. rewrite Ht, Hh.
      destruct (onProcessSentence options && _); simpl;
        exact (filter_fresh (mkTimeout (nextHandle s) 750 _) (timeouts s) Hf).
    + rewrite Hr, Hn. destruct (onProcessSentence options && _); exact Ht.
Qed.

(** C1 (as amended). A golden frame cancels the pending fallback timer:
    the timer reference is cleared, the timeout is no longer registered
    and its firing changes nothing.  The hook keeps no record of what a
    fired timer emitted: the sentence of every golden frame is appended
    to fullSentences, and handed to the consumer when it is non-empty,
    whatever was emitted before. *)
Theorem golden_frame_cancels_timer_and_always_emits
    (data : BackendMessage) (s : Hook) :
  is_golden data = true ->
  let s' := onmessage_try data s in
  debounceTimerRef s' = None
  /\ (forall h, debounceTimerRef s = Some h ->
         List.find (fun t => Pos.eqb (handle t) h) (timeouts s') = None
         /\ dispatch (TimeoutFires h) s' = s')
  /\ fullSentences s' = fullSentences s ++ [sentence_of data]
  /\ processed s'
     = processed s ++ (if onProcessSentence options && JsString.truthy (sentence_of data)
                       then [sentence_of data] else []).
Proof.
  intros Hg s'.
  destruct (golden_effect data s Hg) as (Hs & _ & Hp & _ & Hd).
  split; [exact Hd|]. split; [|split; [exact Hs | exact Hp]].
  intros h Hh.
  assert (Hgone : List.find (fun t => Pos.eqb (handle t) h) (timeouts s') = None).
  { subst s'. unfold onmessage_try. rewrite Hg, Hh.
    destruct (onProcessSentence options && _); simpl; apply find_cleared. }
  split; [exact Hgone | now apply cleared_timeout_is_inert].
Qed.

(** C2 (as amended). A realtime frame whose trimmed text is
    "Hello there." arrives while no timer is pending, and the fallback
    timer fires with nothing in between: the consumer callback is
    called exactly once, with "Hello there.", the timer reference is
    cleared, and fullTranscript and fullSentences are as they were
    before the frame, since the timer callback does not write them. *)
Theorem fallback_timer_emits_without_commit (data : BackendMessage) (s : Hook) :
  onProcessSentence options = true ->
  type_is data "realtime" = true ->
  JsString.trim (sentence_of data) = "Hello there." ->
  debounceTimerRef s = None ->
  handles_fresh s = true ->
  let s1 := onmessage_try data s in
  let s2 := dispatch (TimeoutFires (nextHandle s)) s1 in
  debounceTimerRef s1 = Some (nextHandle s)
  /\ processed s1 = processed s
  /\ processed s2 = processed s ++ ["Hello there."]
  /\ fullTranscript s2 = fullTranscript s
  /\ fullSentences s2 = fullSentences s
  /\ debounceTimerRef s2 = None
  /\ timeouts s2 = timeouts s.
Proof.
  intros Hcb Hr Htrim Hn Hf s1 s2.
  assert (Ha : arms_timer data = true) by (unfold arms_timer; now rewrite Htrim).
  assert (E1 : s1 = arm "Hello there." (setRealtimeText (sentence_of data) s)).
  { subst s1. rewrite (realtime_arms data s Hr Ha Hn). now rewrite Htrim. }
  assert (E2 : s2 = debounce_callback "Hello there."
                      (set_nextHandle (Pos.succ (nextHandle s))
                         (setRealtimeText (sentence_of data) s))).
  { subst s2. rewrite E1.
    apply (arm_then_fire "Hello there." (setRealtimeText (sentence_of data) s)).
    exact Hf. }
  rewrite E1, E2. unfold debounce_callback. rewrite Hcb.
  repeat split; reflexivity.
Qed.

(** C3 (as amended). A run of realtime frames arrives while no timer is
    pending and before any timer fires, and the last frame appears
    complete (its trimmed text is non-empty and ends in '.', '?' or
    '!').  Then exactly one timeout was registered, by the first frame
    of the run that appears complete, and when it fires the consumer
    callback is called exactly once, with the trimmed text of that
    arming frame; later frames replaced the preview but neither the
    timer nor the text it holds. *)
Theorem fallback_emits_text_of_arming_frame
    (front : list BackendMessage) (lastf : BackendMessage) (s : Hook) :
  onProcessSentence options = true ->
  forallb (fun d => type_is d "realtime") (front ++ [lastf]) = true ->
  arms_timer lastf = true ->
  debounceTimerRef s = None ->
  handles_fresh s = true ->
  exists armer,
    List.find arms_timer (front ++ [lastf]) = Some armer
    /\ let s1 := process_frames (front ++ [lastf]) s in
       let s2 := dispatch (TimeoutFires (nextHandle s)) s1 in
       processed s1 = processed s
       /\ debounceTimerRef s1 = Some (nextHandle s)
       /\ timeouts s1
          = timeouts s ++ [mkTimeout (nextHandle s) 750
                             (DebounceCallback (JsString.trim (sentence_of armer)))]
       /\ realtimeText s1 = sentence_of lastf
       /\ processed s2 = processed s ++ [JsString.trim (sentence_of armer)]
       /\ debounceTimerRef s2 = None
       /\ timeouts s2 = timeouts s
       /\ fullSentences s2 = fullSentences s
       /\ fullTranscript s2 = fullTranscript s.
Proof.
  intros Hcb Hall Ha Hn Hf.
  destruct (find_last_arms front lastf Ha) as (armer & Hfind & _).
  exists armer. split; [exact Hfind|].
  intros s1 s2.
  assert (Hprev : preview (front ++ [lastf]) s = setRealtimeText (sentence_of lastf) s).
  { unfold preview. now rewrite last_snoc. }
  assert (E1 : s1 = arm (JsString.trim (sentence_of armer))
                      (setRealtimeText (sentence_of lastf) s)).
  { subst s1. rewrite (process_realtime_idle _ Hall s Hn), Hfind. now rewrite Hprev. }
  assert (E2 : s2 = debounce_callback (JsString.trim (sentence_of armer))
                      (set_nextHandle (Pos.succ (nextHandle s))
                         (setRealtimeText (sentence_of lastf) s))).
  { subst s2. rewrite E1.
    apply (arm_then_fire _ (setRealtimeText (sentence_of lastf) s)). exact Hf. }
  rewrite E1, E2. unfold debounce_callback. rewrite Hcb.
  repeat split; reflexivity.
Qed.

(** C4 (as amended). The golden branch appends the sentence as it
    arrived, without trimming: [data.text || ''] is added to
    fullSentences and, after one space, to fullTranscript.  A missing or
    empty text therefore appends an empty sentence and a space, and the
    consumer callback is not called; any other text, whitespace-only
    text included, is handed to the callback untrimmed, within the same
    handler run. *)
Theorem golden_frame_appends_raw_sentence (data : BackendMessage) (s : Hook) :
  is_golden data = true ->
  let s' := onmessage_try data s in
  fullSentences s' = fullSentences s ++ [sentence_of data]
  /\ fullTranscript s' = (fullTranscript s ++ " " ++ sentence_of data)%string
  /\ (sentence_of data = EmptyString -> processed s' = processed s)
  /\ (sentence_of data <> EmptyString -> onProcessSentence options = true ->
        processed s' = processed s ++ [sentence_of data])
  /\ (onProcessSentence options = false -> processed s' = processed s).
Proof.
  intros Hg s'.
  destruct (golden_effect data s Hg) as (Hs & Ht & Hp & _).
  repeat split; try assumption; subst s'; rewrite Hp.
  - intros ->. rewrite andb_false_r. apply app_nil_r.
  - intros Hne ->. destruct (sentence_of data); [contradiction|reflexivity].
  - intros ->. apply app_nil_r.
Qed.

(** C9. After golden frames carrying the sentences s1..sn, fullTranscript
    is what it was followed by ' ' + s1 + ... + ' ' + sn, each sentence
    as it arrived; starting from the empty transcript it is exactly that
    string, and for n >= 1 it begins with a space. *)
Theorem fullTranscript_of_golden_frames (frames : list BackendMessage) (s : Hook) :
  forallb is_golden frames = true ->
  fullTranscript (process_frames frames s)
  = (fullTranscript s ++ spaced (map sentence_of frames))%string
  /\ (fullTranscript s = EmptyString ->
      fullTranscript (process_frames frames s) = spaced (map sentence_of frames)
      /\ (frames <> [] ->
          exists rest, fullTranscript (process_frames frames s) = String " " rest)).
Proof.
  intros Hall. rewrite (fullTranscript_process_golden frames Hall s).
  split; [reflexivity|]. intros ->. split; [reflexivity|].
  intros Hne. destruct frames as [|data frames]; [contradiction|].
  simpl. eauto.
Qed.

(** *** connect and disconnect *)

Lemma map_sent_alter (f : WebSocket -> WebSocket) (i : nat) (l : list WebSocket) :
  (forall w, sent (f w) = sent w) ->
  map sent (alter f i l) = map sent l.
Proof.
  intros Hf. revert i. induction l as [|w l IH]; intros [|i]; simpl; try reflexivity.
  - now rewrite Hf.
  - f_equal. apply IH.
Qed.

Lemma sent_ws_close (i : nat) (s : Hook) :
  map sent (sockets (ws_close i s)) = map sent (sockets s).
Proof.
  unfold ws_close, update_socket. simpl. apply map_sent_alter.
  intros w. now destruct (readyState w).
Qed.

(** disconnect hands nothing to [send]. *)
Lemma disconnect_sends_nothing (s : Hook) :
  map sent (sockets (disconnect s)) = map sent (sockets s).
Proof.
  unfold disconnect.
  set (s1 := match controlWsRef s with
             | Some c => set_controlWsRef None (ws_close c s)
             | None => s
             end).
  set (s2 := match wsRef s1 with
             | Some d => set_wsRef None (ws_close d s1)
             | None => s1
             end).
  assert (H1 : map sent (sockets s1) = map sent (sockets s)).
  { subst s1. destruct (controlWsRef s) as [c|]; [exact (sent_ws_close c s)|reflexivity]. }
  assert (H2 : map sent (sockets s2) = map sent (sockets s1)).
  { subst s2. destruct (wsRef s1) as [d|]; [exact (sent_ws_close d s1)|reflexivity]. }
  rewrite <- H1, <- H2. now destruct (debounceTimerRef s2).
Qed.

(** disconnect leaves no handle and no timer reference behind, and the
    status is disconnected. *)
Lemma disconnect_clears (s : Hook) :
  controlWsRef (disconnect s) = None /\ wsRef (disconnect s) = None
  /\ debounceTimerRef (disconnect s) = None /\ status (disconnect s) = disconnected.
Proof.
  unfold disconnect.
  destruct (controlWsRef s) eqn:Ec; simpl; destruct (wsRef s) eqn:Ed; simpl;
    destruct (debounceTimerRef s) eqn:Et; simpl; repeat split; auto.
Qed.

(** X1. disconnect is idempotent: a second disconnect leaves the whole
    state, sockets and pending timeouts included, as the first one left
    it. *)
Lemma disconnect_idempotent (s : Hook) :
  disconnect (disconnect s) = disconnect s.
Proof.
  destruct (disconnect_clears s) as (Hc & Hd & Ht & Hs).
  unfold disconnect at 1. rewrite Hc, Hd, Ht.
  destruct (disconnect s); simpl in *. now subst.
Qed.

(** The timer that was pending when disconnect ran does not fire. *)
Lemma disconnect_cancels_timer (s : Hook) (h : positive) :
  debounceTimerRef s = Some h ->
  dispatch (TimeoutFires h) (disconnect s) = disconnect s.
Proof.
  intros Hh. apply cleared_timeout_is_inert. unfold disconnect.
  destruct (controlWsRef s); simpl; destruct (wsRef s); simpl;
    rewrite Hh; simpl; apply find_cleared.
Qed.

(** What connect does once past its two guards, when both constructors
    return. *)
Lemma connect_opens_both (s : Hook) :
  ref_is_open (wsRef s) s || ref_is_open (controlWsRef s) s = false ->
  let s' := connect Constructed Constructed s in
  status s' = connecting /\ error_ s' = None
  /\ sockets s' = sockets s ++ [mkWebSocket Control CONNECTING [] (status s);
                                mkWebSocket Data CONNECTING [] (status s)]
  /\ controlWsRef s' = Some (length (sockets s))
  /\ wsRef s' = Some (S (length (sockets s))).
Proof.
  unfold connect. intros Hopen.
  apply orb_false_iff in Hopen as [-> ->]. simpl.
  rewrite length_app, <- app_assoc. simpl.
  repeat split; try reflexivity. f_equal. lia.
Qed.

(** C6 (as amended). connect returns at once, leaving the whole state as
    it is, exactly when the data handle or the control handle refers to
    a socket whose readyState is OPEN.  Otherwise, sockets that are
    still connecting included, it sets the status to connecting, clears
    the error, and creates the control socket first and the data socket
    second, storing them in the two handles. *)
Theorem connect_guarded_by_open_sockets (c d : CtorOutcome) (s : Hook) :
  (ref_is_open (wsRef s) s || ref_is_open (controlWsRef s) s = true ->
     connect c d s = s)
  /\ (ref_is_open (wsRef s) s || ref_is_open (controlWsRef s) s = false ->
        let s' := connect Constructed Constructed s in
        status s' = connecting /\ error_ s' = None
        /\ sockets s' = sockets s ++ [mkWebSocket Control CONNECTING [] (status s);
                                      mkWebSocket Data CONNECTING [] (status s)]
        /\ controlWsRef s' = Some (length (sockets s))
        /\ wsRef s' = Some (S (length (sockets s)))).
Proof.
  split; intros Hopen.
  - unfold connect. destruct (ref_is_open (wsRef s) s); [reflexivity|].
    simpl in Hopen. now rewrite Hopen.
  - exact (connect_opens_both s Hopen).
Qed.

(** C5. disconnect closes the two sockets and hands nothing to [send]:
    from the connected state the control socket goes to CLOSING with an
    empty list of sent payloads and no grace timeout is registered,
    whereas the unmount cleanup sends the stop command on the open
    control socket and registers the 100 ms timeout before closing. *)
Theorem disconnect_sends_no_stop_command :
  (forall s, map sent (sockets (disconnect s)) = map sent (sockets s))
  /\ sockets (disconnect connected_state)
     = [mkWebSocket Control CLOSING [] disconnected;
        mkWebSocket Data CLOSING [] disconnected]
  /\ timeouts (disconnect connected_state) = []
  /\ sockets (unmount_cleanup connected_state)
     = [mkWebSocket Control OPEN [stopCommand] disconnected;
        mkWebSocket Data OPEN [] disconnected]
  /\ timeouts (unmount_cleanup connected_state)
     = [mkTimeout 1 100 StopGraceCallback].
Proof.
  split; [exact disconnect_sends_nothing|].
  repeat split; reflexivity.
Qed.

(** *** Status transitions *)

(** The open event of a connecting data socket sets the status to
    connected. *)
Lemma data_open_connects (i : nat) (w : WebSocket) (s : Hook) :
  sockets s !! i = Some w -> endpoint w = Data -> readyState w = CONNECTING ->
  status (dispatch (OnOpen i) s) = connected.
Proof. intros Hw He Hr. simpl. now rewrite Hw, Hr, He. Qed.

(** X4. A transport error on either socket that is not yet closed sets
    the status to error, stores an error string and raises exactly one
    toast. *)
Lemma transport_error_reported (i : nat) (w : WebSocket) (s : Hook) :
  sockets s !! i = Some w -> readyState w <> CLOSED ->
  let s' := dispatch (OnError i) s in
  status s' = error /\ error_ s' <> None /\ length (toasts s') = S (length (toasts s)).
Proof.
  intros Hw Hr. simpl. rewrite Hw.
  destruct (readyState w); try contradiction;
    destruct (endpoint w); simpl; rewrite length_app; simpl;
    (split; [reflexivity|split; [discriminate|lia]]).
Qed.

(** The onclose handler of a socket created while the status was
    disconnected never writes the status. *)
Lemma close_with_captured_disconnected (i : nat) (w : WebSocket) (s : Hook) :
  sockets s !! i = Some w -> capturedStatus w = disconnected ->
  status (dispatch (OnClose i) s) = status s.
Proof.
  intros Hw Hc. simpl. rewrite Hw. unfold ws_onclose, controlWs_onclose. rewrite Hc.
  now destruct (readyState w), (endpoint w).
Qed.

(** C7. A connect issued while the status is disconnected, as the first
    connect of a mounted hook is, creates sockets whose onclose handlers
    compare the captured status 'disconnected' with 'disconnected': once
    the open event of the data socket has set the status to connected, the
    close event of the data socket, and likewise that of the control
    socket, leaves the status at connected. *)
Theorem close_after_first_connect_keeps_connected (s : Hook) :
  status s = disconnected ->
  ref_is_open (wsRef s) s || ref_is_open (controlWsRef s) s = false ->
  let c := length (sockets s) in
  let d := S (length (sockets s)) in
  let s1 := dispatch (OnOpen d) (connect Constructed Constructed s) in
  status s1 = connected
  /\ status (dispatch (OnClose d) s1) = connected
  /\ status (dispatch (OnClose c) s1) = connected.
Proof.
  intros Hs Hopen c d s1.
  destruct (connect_opens_both s Hopen) as (_ & _ & Hsock & _).
  set (s' := connect Constructed Constructed s) in *.
  assert (Hd : sockets s' !! d = Some (mkWebSocket Data CONNECTING [] disconnected)).
  { rewrite Hsock, Hs. rewrite lookup_app_r by (unfold d; lia).
    replace (d - length (sockets s)) with 1 by (unfold d; lia). reflexivity. }
  assert (Hc : sockets s' !! c = Some (mkWebSocket Control CONNECTING [] disconnected)).
  { rewrite Hsock, Hs. rewrite lookup_app_r by (unfold c; lia).
    replace (c - length (sockets s)) with 0 by (unfold c; lia). reflexivity. }
  assert (E1 : s1 = ws_onopen (update_socket d (set_readyState OPEN) s')).
  { unfold s1. simpl. now rewrite Hd. }
  assert (Hd1 : sockets s1 !! d = Some (mkWebSocket Data OPEN [] disconnected)).
  { rewrite E1. simpl. rewrite list_lookup_alter_eq, Hd. reflexivity. }
  assert (Hc1 : sockets s1 !! c = Some (mkWebSocket Control CONNECTING [] disconnected)).
  { rewrite E1. simpl. rewrite list_lookup_alter_ne by (unfold c, d; lia). exact Hc. }
  assert (Hst : status s1 = connected) by now rewrite E1.
  split; [exact Hst|]. split.
  - now rewrite (close_with_captured_disconnected d _ s1 Hd1 eq_refl).
  - now rewrite (close_with_captured_disconnected c _ s1 Hc1 eq_refl).
Qed.

(** *** Reachable states *)

Lemma fresh_after_clearTimeout (h : positive) (s : Hook) :
  handles_fresh s = true -> handles_fresh (clearTimeout h s) = true.
Proof.
  unfold handles_fresh, clearTimeout. simpl.
  induction (timeouts s) as [|t l IH]; simpl; [reflexivity|].
  intros H. apply andb_true_iff in H as [Ht Hl].
  destruct (negb (Pos.eqb (handle t) h)); simpl; [rewrite Ht|]; auto.
Qed.

Lemma fresh_after_setTimeout (cb : TimeoutCallback) (ms : N) (s : Hook) :
  handles_fresh s = true -> handles_fresh (snd (setTimeout cb ms s)) = true.
Proof.
  unfold handles_fresh, setTimeout. simpl. intros H.
  rewrite forallb_app. simpl.
  rewrite (proj2 (Pos.ltb_lt _ _) (Pos.lt_succ_diag_r (nextHandle s))).
  rewrite andb_true_r.
  rewrite forallb_forall in *. intros t Ht. specialize (H t Ht).
  apply Pos.ltb_lt in H. apply Pos.ltb_lt. lia.
Qed.

Lemma fresh_cleanup_then (s : Hook) :
  handles_fresh (cleanup_then s) = handles_fresh s.
Proof.
  unfold cleanup_then, ws_close, update_socket.
  destruct (controlWsRef s); simpl; destruct (wsRef s); reflexivity.
Qed.

Lemma fresh_onmessage_try (data : BackendMessage) (s : Hook) :
  handles_fresh s = true -> handles_fresh (onmessage_try data s) = true.
Proof.
  intros H. unfold onmessage_try.
  destruct (is_golden data).
  - destruct (debounceTimerRef s) as [h|];
      destruct (onProcessSentence options && _);
      try exact H; exact (fresh_after_clearTimeout h s H).
  - destruct (type_is data "realtime"); [|exact H].
    destruct (appears_complete _); [|exact H].
    simpl. destruct (debounceTimerRef s); [exact H|].
    exact (fresh_after_setTimeout _ _ (setRealtimeText _ s) H).
Qed.

(** Every event keeps the handles of the pending timeouts below the
    next handle. *)
Lemma dispatch_handles_fresh (ev : Event) (s : Hook) :
  handles_fresh s = true -> handles_fresh (dispatch ev s) = true.
Proof.
  intros H. destruct ev as [c d| | |i|i|i|i raw|h]; simpl.
  - unfold connect.
    destruct (ref_is_open (wsRef s) s); [exact H|].
    destruct (ref_is_open (controlWsRef s) s); [exact H|].
    destruct c, d; exact H.
  - unfold disconnect.
    set (s1 := match controlWsRef s with
               | Some c => set_controlWsRef None (ws_close c s)
               | None => s
               end).
    set (s2 := match wsRef s1 with
               | Some d => set_wsRef None (ws_close d s1)
               | None => s1
               end).
    assert (H1 : handles_fresh s1 = true)
      by (subst s1; destruct (controlWsRef s); exact H).
    assert (H2 : handles_fresh s2 = true)
      by (subst s2; destruct (wsRef s1); exact H1).
    destruct (debounceTimerRef s2) as [h|]; [|exact H2].
    exact (fresh_after_clearTimeout h s2 H2).
  - unfold unmount_cleanup, sendStopCommand.
    destruct (controlWsRef s) as [c|]; [|now rewrite fresh_cleanup_then].
    destruct (ref_is_open (Some c) s); [|now rewrite fresh_cleanup_then].
    exact (fresh_after_setTimeout _ _ (ws_send c stopCommand s) H).
  - destruct (sockets s !! i) as [w|]; [|exact H].
    destruct (readyState w), (endpoint w); exact H.
  - destruct (sockets s !! i) as [w|]; [|exact H]. unfold ws_onclose, controlWs_onclose.
    destruct (readyState w), (endpoint w),
      (status_eqb (capturedStatus w) disconnected); exact H.
  - destruct (sockets s !! i) as [w|]; [|exact H].
    destruct (readyState w), (endpoint w); exact H.
  - destruct (sockets s !! i) as [w|]; [|exact H].
    destruct (endpoint w), (readyState w); try exact H.
    unfold ws_onmessage. destruct (JSON_parse raw); [|exact H].
    now apply fresh_onmessage_try.
  - destruct (List.find _ (timeouts s)) as [t|]; [|exact H].
    pose proof (fresh_after_clearTimeout h s H) as Hc.
    destruct (callback t); simpl.
    + unfold debounce_callback. destruct (onProcessSentence options); exact Hc.
    + now rewrite fresh_cleanup_then.
Qed.

(** The state after any sequence of events from the initial state
    satisfies [handles_fresh]. *)
Lemma run_handles_fresh (evs : list Event) :
  handles_fresh (run evs initial) = true.
Proof.
  unfold run. assert (H : handles_fresh initial = true) by reflexivity.
  revert H. generalize initial.
  induction evs as [|ev evs IH]; intros s H; simpl; [exact H|].
  apply IH. now apply dispatch_handles_fresh.
Qed.

(** *** The pending fallback timeout is the referenced one *)

Lemma referenced_after_cancel (h : positive) (l : list Timeout) :
  forallb (referenced_by (Some h)) l = true ->
  forallb (referenced_by None)
    (List.filter (fun t => negb (Pos.eqb (handle t) h)) l) = true.
Proof.
  induction l as [|t l IH]; simpl; [reflexivity|].
  intros H. apply andb_true_iff in H as [Ht Hl].
  destruct (Pos.eqb (handle t) h) eqn:E; simpl; [auto|].
  rewrite (IH Hl), andb_true_r.
  unfold referenced_by in *. rewrite E in Ht. now destruct (is_debounce t).
Qed.

Lemma referenced_after_filter (p : Timeout -> bool) (r : option positive)
    (l : list Timeout) :
  forallb (referenced_by r) l = true ->
  forallb (referenced_by r) (List.filter p l) = true.
Proof.
  induction l as [|t l IH]; simpl; [reflexivity|].
  intros H. apply andb_true_iff in H as [Ht Hl].
  destruct (p t); simpl; [rewrite Ht|]; auto.
Qed.

Lemma referenced_after_arm (n : positive) (ms : N) (x : string) (l : list Timeout) :
  forallb (referenced_by None) l = true ->
  forallb (referenced_by (Some n)) (l ++ [mkTimeout n ms (DebounceCallback x)]) = true.
Proof.
  intros H. rewrite forallb_app. simpl.
  unfold referenced_by at 2. simpl. rewrite Pos.eqb_refl, andb_true_r.
  rewrite forallb_forall in *. intros t Ht. specialize (H t Ht).
  unfold referenced_by in *. now destruct (is_debounce t).
Qed.

Lemma referenced_after_grace (n : positive) (ms : N) (r : option positive)
    (l : list Timeout) :
  forallb (referenced_by r) l = true ->
  forallb (referenced_by r) (l ++ [mkTimeout n ms StopGraceCallback]) = true.
Proof. intros H. rewrite forallb_app, H. reflexivity. Qed.

Lemma fired_debounce_is_referenced (h : positive) (r : option positive)
    (t : Timeout) (l : list Timeout) :
  forallb (referenced_by r) l = true ->
  List.find (fun u => Pos.eqb (handle u) h) l = Some t ->
  is_debounce t = true ->
  r = Some h.
Proof.
  intros Hall Hfind Hd. apply find_some in Hfind as [Hin Hh].
  rewrite forallb_forall in Hall. specialize (Hall t Hin).
  unfold referenced_by in Hall. rewrite Hd in Hall. simpl in Hall.
  destruct r as [h'|]; [|discriminate].
  apply Pos.eqb_eq in Hh, Hall. congruence.
Qed.

Lemma referenced_cleanup_then (s : Hook) :
  debounce_referenced (cleanup_then s) = debounce_referenced s.
Proof.
  unfold cleanup_then, ws_close, update_socket.
  destruct (controlWsRef s); simpl; destruct (wsRef s); reflexivity.
Qed.

Lemma referenced_onmessage_try (data : BackendMessage) (s : Hook) :
  debounce_referenced s = true -> debounce_referenced (onmessage_try data s) = true.
Proof.
  unfold debounce_referenced. intros H. unfold onmessage_try.
  destruct (is_golden data).
  - destruct (debounceTimerRef s) as [h|] eqn:Er.
    + destruct (onProcessSentence options && _); simpl;
        exact (referenced_after_cancel h _ H).
    + destruct (onProcessSentence options && _); simpl; now rewrite Er.
  - destruct (type_is data "realtime"); [|exact H].
    destruct (appears_complete _); [|exact H].
    simpl. destruct (debounceTimerRef s) eqn:Er; simpl; [now rewrite Er|].
    exact (referenced_after_arm _ _ _ _ H).
Qed.

(** Every event keeps the pending fallback timeouts referenced. *)
Lemma dispatch_debounce_referenced (ev : Event) (s : Hook) :
  debounce_referenced s = true -> debounce_referenced (dispatch ev s) = true.
Proof.
  intros H. destruct ev as [c d| | |i|i|i|i raw|h]; simpl.
  - unfold connect.
    destruct (ref_is_open (wsRef s) s); [exact H|].
    destruct (ref_is_open (controlWsRef s) s); [exact H|].
    destruct c, d; exact H.
  - unfold disconnect.
    set (s1 := match controlWsRef s with
               | Some c => set_controlWsRef None (ws_close c s)
               | None => s
               end).
    set (s2 := match wsRef s1 with
               | Some d => set_wsRef None (ws_close d s1)
               | None => s1
               end).
    assert (H1 : debounce_referenced s1 = true)
      by (subst s1; destruct (controlWsRef s); exact H).
    assert (H2 : debounce_referenced s2 = true)
      by (subst s2; destruct (wsRef s1); exact H1).
    unfold debounce_referenced in *.
    destruct (debounceTimerRef s2) as [h|] eqn:Er; simpl; [|now rewrite Er].
    exact (referenced_after_cancel h _ H2).
  - unfold unmount_cleanup, sendStopCommand.
    destruct (controlWsRef s) as [c|]; [|now rewrite referenced_cleanup_then].
    destruct (ref_is_open (Some c) s); [|now rewrite referenced_cleanup_then].
    exact (referenced_after_grace _ _ _ _ H).
  - destruct (sockets s !! i) as [w|]; [|exact H].
    destruct (readyState w), (endpoint w); exact H.
  - destruct (sockets s !! i) as [w|]; [|exact H]. unfold ws_onclose, controlWs_onclose.
    destruct (readyState w), (endpoint w),
      (status_eqb (capturedStatus w) disconnected); exact H.
  - destruct (sockets s !! i) as [w|]; [|exact H].
    destruct (readyState w), (endpoint w); exact H.
  - destruct (sockets s !! i) as [w|]; [|exact H].
    destruct (endpoint w), (readyState w); try exact H.
    unfold ws_onmessage. destruct (JSON_parse raw); [|exact H].
    now apply referenced_onmessage_try.
  - destruct (List.find _ (timeouts s)) as [t|] eqn:Hfind; [|exact H].
    unfold run_timeout. destruct (callback t) as [x|] eqn:Hcb.
    + assert (Hr : debounceTimerRef s = Some h).
      { apply (fired_debounce_is_referenced h _ t (timeouts s) H Hfind).
        unfold is_debounce. now rewrite Hcb. }
      unfold debounce_referenced in *. rewrite Hr in H.
      unfold debounce_callback.
      destruct (onProcessSentence options); exact (referenced_after_cancel h _ H).
    + rewrite referenced_cleanup_then.
      exact (referenced_after_filter _ _ _ H).
Qed.

Lemma run_debounce_referenced (evs : list Event) :
  debounce_referenced (run evs initial) = true.
Proof.
  unfold run. assert (H : debounce_referenced initial = true) by reflexivity.
  revert H. generalize initial.
  induction evs as [|ev evs IH]; intros s H; simpl; [exact H|].
  apply IH. now apply dispatch_debounce_referenced.
Qed.

(** In a reachable state whose timer reference is null no fallback timeout
    is pending: at most the referenced one can ever fire. *)
Lemma idle_has_no_fallback_timeout (evs : list Event) :
  debounceTimerRef (run evs initial) = None ->
  List.filter is_debounce (timeouts (run evs initial)) = [].
Proof.
  intros Hn. pose proof (run_debounce_referenced evs) as H.
  unfold debounce_referenced in H. rewrite Hn in H.
  induction (timeouts (run evs initial)) as [|t l IH]; simpl; [reflexivity|].
  simpl in H. apply andb_true_iff in H as [Ht Hl].
  unfold referenced_by in Ht. destruct (is_debounce t); [discriminate|auto].
Qed.

(** X3. Only the open event of a data socket turns the status into
    connected: whenever an event takes the status from another value to
    'connected', it is the open event of a socket of the data endpoint. *)
Lemma only_data_open_connects (ev : Event) (s : Hook) :
  status (dispatch ev s) = connected -> status s <> connected ->
  exists i w, ev = OnOpen i /\ sockets s !! i = Some w /\ endpoint w = Data.
Proof.
  intros Hc Hn. destruct ev as [c d| | |i|i|i|i raw|h]; simpl in Hc.
  - exfalso. unfold connect in Hc.
    destruct (ref_is_open (wsRef s) s); [contradiction|].
    destruct (ref_is_open (controlWsRef s) s); [contradiction|].
    destruct c, d; discriminate.
  - exfalso. destruct (disconnect_clears s) as (_ & _ & _ & Hs). congruence.
  - exfalso. apply Hn. rewrite <- Hc. unfold unmount_cleanup, sendStopCommand.
    assert (Hk : forall x, status (cleanup_then x) = status x).
    { intros x. unfold cleanup_then, ws_close, update_socket.
      destruct (controlWsRef x); simpl; destruct (wsRef x); reflexivity. }
    destruct (controlWsRef s) as [c|]; [|now rewrite Hk].
    destruct (ref_is_open (Some c) s); [reflexivity|now rewrite Hk].
  - destruct (sockets s !! i) as [w|] eqn:Hw; [|contradiction].
    destruct (endpoint w) eqn:He.
    + destruct (readyState w); contradiction.
    + eauto.
  - exfalso. destruct (sockets s !! i) as [w|]; [|contradiction].
    unfold ws_onclose, controlWs_onclose in Hc.
    destruct (readyState w), (endpoint w),
      (status_eqb (capturedStatus w) disconnected);
      try contradiction; discriminate.
  - exfalso. destruct (sockets s !! i) as [w|]; [|contradiction].
    destruct (readyState w), (endpoint w); try contradiction; discriminate.
  - exfalso. destruct (sockets s !! i) as [w|]; [|contradiction].
    destruct (endpoint w), (readyState w); try contradiction.
    apply Hn. rewrite <- Hc. unfold ws_onmessage.
    destruct (JSON_parse raw) as [data|]; [|reflexivity].
    unfold onmessage_try.
    destruct (is_golden data).
    * destruct (debounceTimerRef s), (onProcessSentence options && _); reflexivity.
    * destruct (type_is data "realtime"); [|reflexivity].
      destruct (appears_complete _); [|reflexivity].
      simpl. destruct (debounceTimerRef s); reflexivity.
  - exfalso. destruct (List.find _ (timeouts s)) as [t|]; [|contradiction].
    apply Hn. rewrite <- Hc.
    destruct (callback t); simpl.
    + unfold debounce_callback. destruct (onProcessSentence options); reflexivity.
    + unfold cleanup_then, ws_close, update_socket. simpl.
      destruct (controlWsRef s); simpl; destruct (wsRef s); reflexivity.
Qed.

(** *** Status and error string *)

Lemma dispatch_error_has_message (ev : Event) (s : Hook) :
  error_has_message s = true -> error_has_message (dispatch ev s) = true.
Proof.
  intros H. destruct ev as [c d| | |i|i|i|i raw|h]; simpl.
  - unfold connect.
    destruct (ref_is_open (wsRef s) s); [exact H|].
    destruct (ref_is_open (controlWsRef s) s); [exact H|].
    destruct c, d; reflexivity.
  - unfold disconnect.
    destruct (controlWsRef s); simpl; destruct (wsRef s); simpl;
      destruct (debounceTimerRef s); reflexivity.
  - unfold unmount_cleanup, sendStopCommand.
    assert (Hk : forall x, error_has_message (cleanup_then x) = error_has_message x).
    { intros x. unfold cleanup_then, ws_close, update_socket.
      destruct (controlWsRef x); simpl; destruct (wsRef x); reflexivity. }
    destruct (controlWsRef s) as [c|]; [|now rewrite Hk].
    destruct (ref_is_open (Some c) s); [exact H|now rewrite Hk].
  - destruct (sockets s !! i) as [w|]; [|exact H].
    destruct (readyState w), (endpoint w); first [exact H | reflexivity].
  - destruct (sockets s !! i) as [w|]; [|exact H].
    unfold ws_onclose, controlWs_onclose.
    destruct (readyState w), (endpoint w),
      (status_eqb (capturedStatus w) disconnected); first [exact H | reflexivity].
  - destruct (sockets s !! i) as [w|]; [|exact H].
    destruct (readyState w), (endpoint w); first [exact H | reflexivity].
  - destruct (sockets s !! i) as [w|]; [|exact H].
    destruct (endpoint w), (readyState w); try exact H.
    unfold ws_onmessage. destruct (JSON_parse raw) as [data|]; [|exact H].
    unfold onmessage_try.
    destruct (is_golden data).
    + destruct (debounceTimerRef s), (onProcessSentence options && _); exact H.
    + destruct (type_is data "realtime"); [|exact H].
      destruct (appears_complete _); [|exact H].
      simpl. destruct (debounceTimerRef s); exact H.
  - destruct (List.find _ (timeouts s)) as [t|]; [|exact H].
    destruct (callback t); simpl.
    + unfold debounce_callback. destruct (onProcessSentence options); exact H.
    + unfold cleanup_then, ws_close, update_socket. simpl.
      destruct (controlWsRef s); simpl; destruct (wsRef s); exact H.
Qed.

Lemma run_error_has_message (evs : list Event) :
  error_has_message (run evs initial) = true.
Proof.
  unfold run. assert (H : error_has_message initial = true) by reflexivity.
  revert H. generalize initial.
  induction evs as [|ev evs IH]; intros s H; simpl; [exact H|].
  apply IH. now apply dispatch_error_has_message.
Qed.

(** X5. In every state the hook can reach from its mount, a status of
    'error' comes with an error string: the consumer that shows
    [error] while the status is 'error' always has a message to show. *)
Theorem error_status_has_message (evs : list Event) :
  status (run evs initial) = error ->
  exists message, error_ (run evs initial) = Some message.
Proof.
  intros Hs. pose proof (run_error_has_message evs) as H.
  unfold error_has_message in H. rewrite Hs in H. simpl in H.
  destruct (error_ (run evs initial)) as [m|]; [eauto|discriminate].
Qed.

(** *** The committed transcript *)

Lemma spaced_snoc (l : list string) (t : string) :
  spaced (l ++ [t]) = (spaced l ++ " " ++ t)%string.
Proof.
  induction l as [|x l IH]; simpl.
  - now rewrite append_empty_r.
  - rewrite IH. now rewrite !append_assoc.
Qed.

(** An event either leaves the transcript alone or is a golden message
    that appends its sentence. *)
Lemma dispatch_transcript (ev : Event) (s : Hook) :
  (fullSentences (dispatch ev s) = fullSentences s
   /\ fullTranscript (dispatch ev s) = fullTranscript s)
  \/ (exists i raw data,
        ev = OnMessage i raw /\ JSON_parse raw = Some data /\ is_golden data = true
        /\ fullSentences (dispatch ev s) = fullSentences s ++ [sentence_of data]
        /\ fullTranscript (dispatch ev s)
           = (fullTranscript s ++ " " ++ sentence_of data)%string).
Proof.
  destruct ev as [c d| | |i|i|i|i raw|h]; simpl.
  - left. unfold connect.
    destruct (ref_is_open (wsRef s) s); [auto|].
    destruct (ref_is_open (controlWsRef s) s); [auto|].
    destruct c, d; auto.
  - left. unfold disconnect.
    destruct (controlWsRef s); simpl; destruct (wsRef s); simpl;
      destruct (debounceTimerRef s); auto.
  - left. unfold unmount_cleanup, sendStopCommand.
    assert (Hk : forall x, fullSentences (cleanup_then x) = fullSentences x
                           /\ fullTranscript (cleanup_then x) = fullTranscript x).
    { intros x. unfold cleanup_then, ws_close, update_socket.
      destruct (controlWsRef x); simpl; destruct (wsRef x); auto. }
    destruct (controlWsRef s) as [c|]; [|apply Hk].
    destruct (ref_is_open (Some c) s); [auto|apply Hk].
  - left. destruct (sockets s !! i) as [w|]; [|auto].
    destruct (readyState w), (endpoint w); auto.
  - left. destruct (sockets s !! i) as [w|]; [|auto].
    unfold ws_onclose, controlWs_onclose.
    destruct (readyState w), (endpoint w),
      (status_eqb (capturedStatus w) disconnected); auto.
  - left. destruct (sockets s !! i) as [w|]; [|auto].
    destruct (readyState w), (endpoint w); auto.
  - destruct (sockets s !! i) as [w|]; [|auto].
    destruct (endpoint w), (readyState w); auto.
    unfold ws_onmessage. destruct (JSON_parse raw) as [data|] eqn:Hp; [|auto].
    destruct (is_golden data) eqn:Hg.
    + right. destruct (golden_effect data s Hg) as (Hs & Ht & _).
      exists i, raw, data. auto.
    + left. unfold onmessage_try. rewrite Hg.
      destruct (type_is data "realtime"); [|auto].
      destruct (appears_complete _); [|auto].
      simpl. destruct (debounceTimerRef s); auto.
  - left. destruct (List.find _ (timeouts s)) as [t|]; [|auto].
    destruct (callback t); simpl.
    + unfold debounce_callback. destruct (onProcessSentence options); auto.
    + unfold cleanup_then, ws_close, update_socket. simpl.
      destruct (controlWsRef s); simpl; destruct (wsRef s); auto.
Qed.

(** X6. In every state reachable from the mount, fullTranscript is the
    join of fullSentences with one space before each sentence: the two
    views of the transcript never drift apart. *)
Theorem transcript_views_agree (evs : list Event) :
  fullTranscript (run evs initial) = spaced (fullSentences (run evs initial)).
Proof.
  unfold run.
  assert (H : transcript_joined initial) by reflexivity.
  revert H. generalize initial.
  induction evs as [|ev evs IH]; intros s H; simpl; [exact H|].
  apply IH. unfold transcript_joined in *.
  destruct (dispatch_transcript ev s) as [[Hs Ht]|(i & raw & data & _ & _ & _ & Hs & Ht)].
  - now rewrite Hs, Ht.
  - rewrite Hs, Ht, spaced_snoc. now rewrite H.
Qed.

(** X7. The committed transcript is append-only and only golden messages
    write it: an event that changes fullSentences or fullTranscript is a
    message that parses to a golden frame, and it appends exactly that
    frame's sentence.  No connect, disconnect, unmount, socket event or
    timeout clears or rewrites it. *)
Theorem transcript_changes_only_by_golden_append (ev : Event) (s : Hook) :
  fullSentences (dispatch ev s) <> fullSentences s
  \/ fullTranscript (dispatch ev s) <> fullTranscript s ->
  exists i raw data,
    ev = OnMessage i raw /\ JSON_parse raw = Some data /\ is_golden data = true
    /\ fullSentences (dispatch ev s) = fullSentences s ++ [sentence_of data]
    /\ fullTranscript (dispatch ev s)
       = (fullTranscript s ++ " " ++ sentence_of data)%string.
Proof.
  intros Hchg.
  destruct (dispatch_transcript ev s) as [[Hs Ht]|H]; [|exact H].
  destruct Hchg as [Hc|Hc]; contradiction.
Qed.

(** *** After disconnect *)



(** *** Sockets and handles *)

Lemma wf_alter (f : WebSocket -> WebSocket) (i : nat) (cref dref : option nat)
    (l : list WebSocket) :
  keeps_payloads f -> sockets_wf_at cref dref l -> sockets_wf_at cref dref (alter f i l).
Proof.
  intros Hf [[Hc Hd] Hall]. split; [split|].
  - intros c Ec. destruct (Hc c Ec) as (w & Hw & He).
    rewrite list_lookup_alter. case_decide as Hi.
    + subst i. rewrite Hw. exists (f w). split; [reflexivity|].
      now rewrite (proj1 (Hf w)).
    + eauto.
  - intros d Ed. destruct (Hd d Ed) as (w & Hw & He).
    rewrite list_lookup_alter. case_decide as Hi.
    + subst i. rewrite Hw. exists (f w). split; [reflexivity|].
      now rewrite (proj1 (Hf w)).
    + eauto.
  - apply Forall_alter; [exact Hall|].
    intros w _ Hw. unfold only_stop_sent in *.
    destruct (Hf w) as [-> ->]. exact Hw.
Qed.

Lemma wf_send_stop (c : nat) (dref : option nat) (l : list WebSocket) :
  sockets_wf_at (Some c) dref l ->
  sockets_wf_at (Some c) dref
    (alter (fun w => mkWebSocket (endpoint w) (readyState w)
                       (sent w ++ [stopCommand]) (capturedStatus w)) c l).
Proof.
  intros [[Hc Hd] Hall].
  destruct (Hc c eq_refl) as (wc & Hwc & Hec).
  split; [split|].
  - intros c' Ec. inversion Ec; subst c'.
    rewrite list_lookup_alter_eq, Hwc. simpl. eauto.
  - intros d Ed. destruct (Hd d Ed) as (w & Hw & He).
    rewrite list_lookup_alter. case_decide as Hi; [|eauto].
    subst d. rewrite Hwc in Hw. inversion Hw; subst w. congruence.
  - apply Forall_alter; [exact Hall|].
    intros w Hw Hok. rewrite Hwc in Hw. inversion Hw; subst w.
    unfold only_stop_sent in *. simpl. rewrite Hec in *.
    apply Forall_app. split; [exact Hok|]. repeat constructor.
Qed.

Lemma wf_drop_control (cref dref : option nat) (l : list WebSocket) :
  sockets_wf_at cref dref l -> sockets_wf_at None dref l.
Proof. intros [[_ Hd] Hall]. repeat split; [discriminate|exact Hd|exact Hall]. Qed.

Lemma wf_drop_data (cref dref : option nat) (l : list WebSocket) :
  sockets_wf_at cref dref l -> sockets_wf_at cref None l.
Proof. intros [[Hc _] Hall]. repeat split; [exact Hc|discriminate|exact Hall]. Qed.

Lemma wf_new_control (cref dref : option nat) (l : list WebSocket)
    (cap : TranscriptionWSStatus) :
  sockets_wf_at cref dref l ->
  sockets_wf_at (Some (length l)) dref (l ++ [mkWebSocket Control CONNECTING [] cap]).
Proof.
  intros [[_ Hd] Hall]. split; [split|].
  - intros c Ec. inversion Ec; subst c.
    exists (mkWebSocket Control CONNECTING [] cap). split; [|reflexivity].
    now apply list_lookup_middle.
  - intros d Ed. destruct (Hd d Ed) as (w & Hw & He).
    exists w. split; [now apply lookup_app_l_Some|exact He].
  - apply Forall_app. split; [exact Hall|]. repeat constructor.
Qed.

Lemma wf_new_data (cref dref : option nat) (l : list WebSocket)
    (cap : TranscriptionWSStatus) :
  sockets_wf_at cref dref l ->
  sockets_wf_at cref (Some (length l)) (l ++ [mkWebSocket Data CONNECTING [] cap]).
Proof.
  intros [[Hc _] Hall]. split; [split|].
  - intros c Ec. destruct (Hc c Ec) as (w & Hw & He).
    exists w. split; [now apply lookup_app_l_Some|exact He].
  - intros d Ed. inversion Ed; subst d.
    exists (mkWebSocket Data CONNECTING [] cap). split; [|reflexivity].
    now apply list_lookup_middle.
  - apply Forall_app. split; [exact Hall|]. repeat constructor.
Qed.

Lemma keeps_payloads_close :
  keeps_payloads (fun w => match readyState w with
                           | CLOSING | CLOSED => w
                           | _ => mkWebSocket (endpoint w) CLOSING (sent w) (capturedStatus w)
                           end).
Proof. intros w. destruct (readyState w); split; reflexivity. Qed.

Lemma keeps_payloads_readyState (r : ReadyState) : keeps_payloads (set_readyState r).
Proof. intros w. split; reflexivity. Qed.

Lemma cleanup_then_wf (s : Hook) : sockets_wf s -> sockets_wf (cleanup_then s).
Proof.
  unfold sockets_wf, cleanup_then, ws_close, update_socket. intros H.
  destruct (controlWsRef s) as [c|] eqn:Ec; destruct (wsRef s) as [d|] eqn:Ed;
    simpl; rewrite ?Ed; simpl; rewrite ?Ec, ?Ed.
  - apply wf_drop_data with (dref := Some d).
    apply wf_alter; [apply keeps_payloads_close|].
    apply wf_drop_control with (cref := Some c).
    apply wf_alter; [apply keeps_payloads_close|exact H].
  - apply wf_drop_control with (cref := Some c).
    apply wf_alter; [apply keeps_payloads_close|exact H].
  - apply wf_drop_data with (dref := Some d).
    apply wf_alter; [apply keeps_payloads_close|exact H].
  - exact H.
Qed.

Lemma onmessage_try_wf (data : BackendMessage) (s : Hook) :
  sockets_wf s -> sockets_wf (onmessage_try data s).
Proof.
  intros H. unfold onmessage_try.
  destruct (is_golden data).
  - destruct (debounceTimerRef s), (onProcessSentence options && _); exact H.
  - destruct (type_is data "realtime"); [|exact H].
    destruct (appears_complete _); [|exact H].
    simpl. destruct (debounceTimerRef s); exact H.
Qed.

Lemma dispatch_sockets_wf (ev : Event) (s : Hook) :
  sockets_wf s -> sockets_wf (dispatch ev s).
Proof.
  intros H. destruct ev as [c d| | |i|i|i|i raw|h]; simpl.
  - unfold connect.
    destruct (ref_is_open (wsRef s) s); [exact H|].
    destruct (ref_is_open (controlWsRef s) s); [exact H|].
    destruct c; [|exact H].
    destruct d.
    + exact (wf_new_data _ _ _ (status s) (wf_new_control _ _ _ (status s) H)).
    + exact (wf_new_control _ _ _ (status s) H).
  - pose proof (cleanup_then_wf s H) as Hc.
    change (sockets_wf
              (setStatus disconnected
                 (match debounceTimerRef (cleanup_then s) with
                  | Some h => set_debounceTimerRef None (clearTimeout h (cleanup_then s))
                  | None => cleanup_then s
                  end))).
    destruct (debounceTimerRef (cleanup_then s)); exact Hc.
  - unfold unmount_cleanup, sendStopCommand.
    destruct (controlWsRef s) as [c|] eqn:Ec; [|now apply cleanup_then_wf].
    destruct (ref_is_open (Some c) s); [|now apply cleanup_then_wf].
    unfold sockets_wf in *. simpl. rewrite Ec in *. now apply wf_send_stop.
  - destruct (sockets s !! i) as [w|]; [|exact H].
    destruct (readyState w); try exact H.
    destruct (endpoint w);
      exact (wf_alter _ i _ _ _ (keeps_payloads_readyState OPEN) H).
  - destruct (sockets s !! i) as [w|]; [|exact H].
    unfold ws_onclose, controlWs_onclose.
    destruct (readyState w); try exact H;
      destruct (endpoint w), (status_eqb (capturedStatus w) disconnected);
      exact (wf_alter _ i _ _ _ (keeps_payloads_readyState CLOSED) H).
  - destruct (sockets s !! i) as [w|]; [|exact H].
    destruct (readyState w), (endpoint w); exact H.
  - destruct (sockets s !! i) as [w|]; [|exact H].
    destruct (endpoint w), (readyState w); try exact H.
    unfold ws_onmessage. destruct (JSON_parse raw); [|exact H].
    now apply onmessage_try_wf.
  - destruct (List.find _ (timeouts s)) as [t|]; [|exact H].
    destruct (callback t); simpl.
    + unfold debounce_callback. destruct (onProcessSentence options); exact H.
    + exact (cleanup_then_wf (clearTimeout h s) H).
Qed.

(** X8. In every state reachable from the mount both handles, when set,
    refer to existing sockets of their own endpoint, the hook has sent
    nothing on any data socket, and every payload it has sent on a control
    socket is the stop command. *)
Theorem hook_sends_only_stop_on_control (evs : list Event) :
  refs_typed (run evs initial)
  /\ Forall only_stop_sent (sockets (run evs initial)).
Proof.
  unfold run.
  assert (H : sockets_wf initial).
  { split; [split; discriminate|constructor]. }
  revert H. generalize initial.
  induction evs as [|ev evs IH]; intros s H; simpl; [exact H|].
  apply IH. now apply dispatch_sockets_wf.
Qed.

(** *** At most one fallback timeout *)

Lemma unreferenced_has_no_debounce (l : list Timeout) :
  forallb (referenced_by None) l = true -> List.filter is_debounce l = [].
Proof.
  induction l as [|t l IH]; simpl; [reflexivity|].
  intros H. apply andb_true_iff in H as [Ht Hl].
  unfold referenced_by in Ht. destruct (is_debounce t); [discriminate|auto].
Qed.

Lemma filter_filter_length (p q : Timeout -> bool) (l : list Timeout) :
  length (List.filter p (List.filter q l)) <= length (List.filter p l).
Proof.
  induction l as [|t l IH]; simpl; [lia|].
  destruct (q t); simpl; destruct (p t); simpl; lia.
Qed.

(** How an event changes the pending timeouts and the timer reference. *)
Lemma dispatch_timer_shape (ev : Event) (s : Hook) :
  debounce_referenced s = true ->
  let s' := dispatch ev s in
  (timeouts s' = timeouts s /\ debounceTimerRef s' = debounceTimerRef s)
  \/ (exists h, debounceTimerRef s = Some h
               /\ timeouts s'
                  = List.filter (fun t => negb (Pos.eqb (handle t) h)) (timeouts s)
               /\ debounceTimerRef s' = None)
  \/ (exists ms cb, is_debounce (mkTimeout (nextHandle s) ms cb) = true
                   /\ debounceTimerRef s = None
                   /\ timeouts s' = timeouts s ++ [mkTimeout (nextHandle s) ms cb]
                   /\ debounceTimerRef s' = Some (nextHandle s))
  \/ (exists ms cb, is_debounce (mkTimeout (nextHandle s) ms cb) = false
                   /\ timeouts s' = timeouts s ++ [mkTimeout (nextHandle s) ms cb]
                   /\ debounceTimerRef s' = debounceTimerRef s)
  \/ (exists h, timeouts s'
                = List.filter (fun t => negb (Pos.eqb (handle t) h)) (timeouts s)
               /\ debounceTimerRef s' = debounceTimerRef s).
Proof.
  intros Hr s'. subst s'.
  assert (Hk : forall x, timeouts (cleanup_then x) = timeouts x
                         /\ debounceTimerRef (cleanup_then x) = debounceTimerRef x).
  { intros x. unfold cleanup_then, ws_close, update_socket.
    destruct (controlWsRef x); simpl; destruct (wsRef x); auto. }
  destruct ev as [c d| | |i|i|i|i raw|h];
    [simpl|unfold dispatch|simpl..].
  - left. unfold connect.
    destruct (ref_is_open (wsRef s) s); [auto|].
    destruct (ref_is_open (controlWsRef s) s); [auto|].
    destruct c, d; auto.
  - change (disconnect s)
      with (setStatus disconnected
              (match debounceTimerRef (cleanup_then s) with
               | Some h => set_debounceTimerRef None (clearTimeout h (cleanup_then s))
               | None => cleanup_then s
               end)).
    destruct (Hk s) as [Ht Hd]. rewrite Hd.
    destruct (debounceTimerRef s) as [h|] eqn:E; simpl.
    + right. left. exists h. rewrite Ht. auto.
    + left. auto.
  - unfold unmount_cleanup, sendStopCommand.
    destruct (controlWsRef s) as [c|]; [|left; apply Hk].
    destruct (ref_is_open (Some c) s); [|left; apply Hk].
    right. right. right. left. exists 100%N, StopGraceCallback. auto.
  - left. destruct (sockets s !! i) as [w|]; [|auto].
    destruct (readyState w), (endpoint w); auto.
  - left. destruct (sockets s !! i) as [w|]; [|auto].
    unfold ws_onclose, controlWs_onclose.
    destruct (readyState w), (endpoint w),
      (status_eqb (capturedStatus w) disconnected); auto.
  - left. destruct (sockets s !! i) as [w|]; [|auto].
    destruct (readyState w), (endpoint w); auto.
  - destruct (sockets s !! i) as [w|]; [|auto].
    destruct (endpoint w), (readyState w); auto.
    unfold ws_onmessage. destruct (JSON_parse raw) as [data|]; [|auto].
    unfold onmessage_try.
    destruct (is_golden data).
    + destruct (debounceTimerRef s) as [h|] eqn:E.
      * right. left. exists h.
        destruct (onProcessSentence options && _); auto.
      * left. destruct (onProcessSentence options && _); auto.
    + destruct (type_is data "realtime"); [|auto].
      destruct (appears_complete _); [|auto].
      simpl. destruct (debounceTimerRef s) eqn:E; [auto|].
      right. right. left. eexists 750%N, (DebounceCallback _). simpl. auto.
  - destruct (List.find _ (timeouts s)) as [t|] eqn:Hfind; [|auto].
    destruct (callback t) as [x|] eqn:Hcb; simpl.
    + right. left. exists h.
      assert (Hd : is_debounce t = true) by (unfold is_debounce; now rewrite Hcb).
      pose proof (fired_debounce_is_referenced h _ t (timeouts s) Hr Hfind Hd) as E.
      unfold debounce_callback. destruct (onProcessSentence options); auto.
    + right. right. right. right. exists h.
      destruct (Hk (clearTimeout h s)) as [Ht Hd]. rewrite Ht, Hd. auto.
Qed.

Lemma dispatch_fallback_count (ev : Event) (s : Hook) :
  debounce_referenced s = true -> fallback_count_ok s ->
  fallback_count_ok (dispatch ev s).
Proof.
  intros Hr Hc. unfold fallback_count_ok in *.
  destruct (dispatch_timer_shape ev s Hr)
    as [[Ht Hd]|[(h & E & Ht & Hd)|[(ms & cb & Hdeb & E & Ht & Hd)
        |[(ms & cb & Hdeb & Ht & Hd)|(h & Ht & Hd)]]]];
    rewrite Ht, Hd.
  - exact Hc.
  - unfold debounce_referenced in Hr. rewrite E in Hr.
    rewrite (unreferenced_has_no_debounce _ (referenced_after_cancel h _ Hr)).
    simpl. lia.
  - rewrite E in Hc. rewrite List.filter_app, length_app. simpl. rewrite Hdeb. simpl. lia.
  - rewrite List.filter_app, length_app. simpl. rewrite Hdeb. simpl. lia.
  - pose proof (filter_filter_length is_debounce
                  (fun t => negb (Pos.eqb (handle t) h)) (timeouts s)). lia.
Qed.

Lemma run_fallback_count (evs : list Event) :
  fallback_count_ok (run evs initial).
Proof.
  unfold run.
  assert (H0 : debounce_referenced initial = true /\ fallback_count_ok initial)
    by (split; [reflexivity | unfold fallback_count_ok; simpl; lia]).
  revert H0. generalize initial.
  induction evs as [|ev evs IH]; intros s [H1 H2]; simpl; [exact H2|].
  apply IH. split.
  - now apply dispatch_debounce_referenced.
  - now apply dispatch_fallback_count.
Qed.

(** X11. In every state reachable from the mount at most one fallback
    timeout is pending, it is the one debounceTimerRef refers to, and none
    is pending while the reference is null. *)
Theorem at_most_one_fallback_timeout (evs : list Event) :
  let s := run evs initial in
  length (List.filter is_debounce (timeouts s)) <= 1
  /\ (forall t, In t (List.filter is_debounce (timeouts s)) ->
        debounceTimerRef s = Some (handle t))
  /\ (debounceTimerRef s = None -> List.filter is_debounce (timeouts s) = []).
Proof.
  intros s.
  assert (Hr : debounce_referenced s = true) by apply run_debounce_referenced.
  assert (Hc : fallback_count_ok s) by apply run_fallback_count.
  unfold fallback_count_ok in Hc. unfold debounce_referenced in Hr.
  split; [destruct (debounceTimerRef s); lia|]. split.
  - intros t Ht. apply filter_In in Ht as [Hin Hd].
    rewrite forallb_forall in Hr. specialize (Hr t Hin).
    unfold referenced_by in Hr. rewrite Hd in Hr. simpl in Hr.
    destruct (debounceTimerRef s) as [h|]; [|discriminate].
    apply Pos.eqb_eq in Hr. now rewrite Hr.
  - intros Hn. rewrite Hn in Hr. now apply unreferenced_has_no_debounce.
Qed.

(** *** Reconnecting *)

(** X9. A connect issued while the status is not 'disconnected', such as
    the retry after an error, resets the status to connecting and clears
    the error string; once the new data socket has opened, the close event
    of either new socket sets the status to disconnected. *)
Theorem reconnect_sees_close (s : Hook) :
  status s <> disconnected ->
  ref_is_open (wsRef s) s || ref_is_open (controlWsRef s) s = false ->
  let c := length (sockets s) in
  let d := S (length (sockets s)) in
  let s0 := connect Constructed Constructed s in
  let s1 := dispatch (OnOpen d) s0 in
  status s0 = connecting /\ error_ s0 = None
  /\ status s1 = connected
  /\ status (dispatch (OnClose d) s1) = disconnected
  /\ status (dispatch (OnClose c) s1) = disconnected.
Proof.
  intros Hs Hopen c d s0 s1.
  destruct (connect_opens_both s Hopen) as (Hst & Herr & Hsock & _).
  fold s0 in Hst, Herr, Hsock.
  assert (Hcap : status_eqb (status s) disconnected = false)
    by (destruct (status s); try reflexivity; contradiction).
  assert (Hd : sockets s0 !! d = Some (mkWebSocket Data CONNECTING [] (status s))).
  { rewrite Hsock. rewrite lookup_app_r by (unfold d; lia).
    replace (d - length (sockets s)) with 1 by (unfold d; lia). reflexivity. }
  assert (Hc : sockets s0 !! c = Some (mkWebSocket Control CONNECTING [] (status s))).
  { rewrite Hsock. rewrite lookup_app_r by (unfold c; lia).
    replace (c - length (sockets s)) with 0 by (unfold c; lia). reflexivity. }
  assert (E1 : s1 = ws_onopen (update_socket d (set_readyState OPEN) s0)).
  { unfold s1. simpl. now rewrite Hd. }
  assert (Hd1 : sockets s1 !! d = Some (mkWebSocket Data OPEN [] (status s))).
  { rewrite E1. simpl. rewrite list_lookup_alter_eq, Hd. reflexivity. }
  assert (Hc1 : sockets s1 !! c = Some (mkWebSocket Control CONNECTING [] (status s))).
  { rewrite E1. simpl. rewrite list_lookup_alter_ne by (unfold c, d; lia). exact Hc. }
  split; [exact Hst|]. split; [exact Herr|]. split; [now rewrite E1|]. split.
  - simpl. rewrite Hd1. simpl. unfold ws_onclose. simpl. now rewrite Hcap.
  - simpl. rewrite Hc1. simpl. unfold controlWs_onclose. simpl. now rewrite Hcap.
Qed.

(** *** Unmount *)

Lemma grace_then_fire (s : Hook) :
  handles_fresh s = true ->
  dispatch (TimeoutFires (nextHandle s)) (snd (setTimeout StopGraceCallback 100 s))
  = cleanup_then (set_nextHandle (Pos.succ (nextHandle s)) s).
Proof.
  intros Hf. unfold handles_fresh in Hf.
  pose (new := mkTimeout (nextHandle s) 100 StopGraceCallback).
  assert (Hfind : List.find (fun u => Pos.eqb (handle u) (nextHandle s))
                    (timeouts s ++ [new]) = Some new)
    by exact (find_fresh new (timeouts s) Hf).
  assert (Hfilter : List.filter (fun u => negb (Pos.eqb (handle u) (nextHandle s)))
                      (timeouts s ++ [new]) = timeouts s)
    by exact (filter_fresh new (timeouts s) Hf).
  unfold dispatch, setTimeout, clearTimeout. simpl.
  fold new. rewrite Hfind, Hfilter. simpl.
  now destruct s.
Qed.

(** X12. The unmount cleanup with an open control socket: the stop command
    is sent on it first and both sockets stay as they are until the 100 ms
    timeout fires; then both handles are cleared and the control socket is
    closing, with the stop command as its last payload.  The cleanup does
    not touch the fallback timer: its reference and the other pending
    timeouts are as before unmount. *)
Theorem unmount_sends_stop_then_closes (s : Hook) (c : nat) (w : WebSocket) :
  controlWsRef s = Some c ->
  sockets s !! c = Some w ->
  readyState w = OPEN ->
  handles_fresh s = true ->
  let s1 := unmount_cleanup s in
  let s2 := dispatch (TimeoutFires (nextHandle s)) s1 in
  sockets s1 !! c
  = Some (mkWebSocket (endpoint w) OPEN (sent w ++ [stopCommand]) (capturedStatus w))
  /\ controlWsRef s1 = Some c /\ wsRef s1 = wsRef s
  /\ controlWsRef s2 = None /\ wsRef s2 = None
  /\ (exists w2, sockets s2 !! c = Some w2 /\ readyState w2 = CLOSING
                 /\ sent w2 = sent w ++ [stopCommand])
  /\ debounceTimerRef s2 = debounceTimerRef s
  /\ timeouts s2 = timeouts s
  /\ processed s2 = processed s.
Proof.
  intros Ec Hw Hr Hf s1 s2.
  assert (Hopen : ref_is_open (Some c) s = true)
    by (unfold ref_is_open; now rewrite Hw, Hr).
  assert (E1 : s1 = snd (setTimeout StopGraceCallback 100 (ws_send c stopCommand s))).
  { unfold s1, unmount_cleanup, sendStopCommand. now rewrite Ec, Hopen. }
  assert (E2 : s2 = cleanup_then (set_nextHandle (Pos.succ (nextHandle s))
                                    (ws_send c stopCommand s))).
  { unfold s2. rewrite E1.
    exact (grace_then_fire (ws_send c stopCommand s) Hf). }
  assert (Hsend : alter (fun w => mkWebSocket (endpoint w) (readyState w)
                                    (sent w ++ [stopCommand]) (capturedStatus w))
                    c (sockets s) !! c
                  = Some (mkWebSocket (endpoint w) OPEN (sent w ++ [stopCommand])
                            (capturedStatus w))).
  { rewrite list_lookup_alter_eq, Hw. simpl. now rewrite Hr. }
  split; [rewrite E1; exact Hsend|].
  split; [rewrite E1; exact Ec|]. split; [now rewrite E1|].
  rewrite E2. unfold cleanup_then, ws_close, update_socket. simpl. rewrite Ec. simpl.
  destruct (wsRef s) as [d|] eqn:Ed; simpl; rewrite ?Ed; simpl.
  - split; [reflexivity|]. split; [reflexivity|].
    split; [|split; [reflexivity|split; reflexivity]].
    rewrite list_lookup_alter. case_decide as Hdc.
    + subst d. rewrite list_lookup_alter_eq, Hsend. simpl. eauto.
    + rewrite list_lookup_alter_eq, Hsend. simpl. eauto.
  - split; [reflexivity|]. split; [reflexivity|].
    split; [|split; [reflexivity|split; reflexivity]].
    rewrite list_lookup_alter_eq, Hsend. simpl. eauto.
Qed.

(** [connected_state] is the state after connect and the two open
    events. *)
Lemma connected_state_reached :
  run [CallConnect Constructed Constructed; OnOpen 0; OnOpen 1] initial
  = connected_state.
Proof. reflexivity. Qed.

End Handlers.

(** *** The theorems at concrete inputs *)

Lemma golden_frame_cancels_timer_witness :
  let opts := mkOptions true in
  let data := mkBackendMessage (Some "fullSentence") (Some "I think so.") in
  let s := onmessage_try opts (mkBackendMessage (Some "realtime") (Some "I think."))
             connected_state in
  is_golden data = true
  /\ debounceTimerRef s = Some 1%positive
  /\ debounceTimerRef (onmessage_try opts data s) = None
  /\ dispatch FlatJson.parse opts (TimeoutFires 1) (onmessage_try opts data s)
     = onmessage_try opts data s
  /\ processed (onmessage_try opts data s) = ["I think so."].
Proof.
  intros opts data s.
  destruct (golden_frame_cancels_timer_and_always_emits FlatJson.parse opts data s eq_refl)
    as (Hd & Hh & _ & Hp).
  split; [reflexivity|]. split; [reflexivity|]. split; [exact Hd|].
  split; [exact (proj2 (Hh 1%positive eq_refl)) | exact Hp].
Defined.

Lemma fallback_timer_emits_witness :
  let opts := mkOptions true in
  let data := mkBackendMessage (Some "realtime") (Some "  Hello there. ") in
  let s := connected_state in
  let s2 := dispatch FlatJson.parse opts (TimeoutFires (nextHandle s))
              (onmessage_try opts data s) in
  (onProcessSentence opts = true /\ type_is data "realtime" = true
   /\ JsString.trim (sentence_of data) = "Hello there."
   /\ debounceTimerRef s = None /\ handles_fresh s = true)
  /\ processed s2 = ["Hello there."]
  /\ fullTranscript s2 = EmptyString /\ fullSentences s2 = [].
Proof.
  intros opts data s s2.
  destruct (fallback_timer_emits_without_commit FlatJson.parse opts data s
              eq_refl eq_refl eq_refl eq_refl eq_refl)
    as (_ & _ & Hp & Ht & Hs & _).
  split; [repeat split; reflexivity|].
  split; [exact Hp|]. split; [exact Ht | exact Hs].
Defined.

Lemma fallback_emits_text_of_arming_frame_witness :
  let opts := mkOptions true in
  let front := [mkBackendMessage (Some "realtime") (Some "Hi.")] in
  let lastf := mkBackendMessage (Some "realtime") (Some "Hi. How are you?") in
  let s := connected_state in
  (onProcessSentence opts = true
   /\ forallb (fun d => type_is d "realtime") (front ++ [lastf]) = true
   /\ arms_timer lastf = true
   /\ debounceTimerRef s = None /\ handles_fresh s = true)
  /\ exists armer,
       List.find arms_timer (front ++ [lastf]) = Some armer
       /\ processed (dispatch FlatJson.parse opts (TimeoutFires (nextHandle s))
                       (process_frames opts (front ++ [lastf]) s))
          = processed s ++ [JsString.trim (sentence_of armer)].
Proof.
  intros opts front lastf s.
  split; [repeat split; reflexivity|].
  destruct (fallback_emits_text_of_arming_frame FlatJson.parse opts front lastf s
              eq_refl eq_refl eq_refl eq_refl eq_refl)
    as (armer & Hfind & H).
  exists armer. split; [exact Hfind|].
  exact (proj1 (proj2 (proj2 (proj2 (proj2 H))))).
Defined.

Lemma golden_frame_appends_raw_sentence_witness :
  let opts := mkOptions true in
  let data := mkBackendMessage (Some "completed") (Some " I think so. ") in
  let s' := onmessage_try opts data connected_state in
  is_golden data = true
  /\ fullSentences s' = [" I think so. "]
  /\ fullTranscript s' = "  I think so. "
  /\ processed s' = [" I think so. "].
Proof.
  intros opts data s'.
  destruct (golden_frame_appends_raw_sentence opts data connected_state eq_refl)
    as (Hs & Ht & _ & Hp & _).
  split; [reflexivity|]. split; [exact Hs|]. split; [exact Ht|].
  apply Hp; [discriminate | reflexivity].
Defined.

Lemma connect_guarded_by_open_sockets_witness :
  (ref_is_open (wsRef connected_state) connected_state
   || ref_is_open (controlWsRef connected_state) connected_state = true
   /\ connect Constructed Constructed connected_state = connected_state)
  /\ (ref_is_open (wsRef initial) initial
      || ref_is_open (controlWsRef initial) initial = false
      /\ status (connect Constructed Constructed initial) = connecting
      /\ controlWsRef (connect Constructed Constructed initial) = Some 0
      /\ wsRef (connect Constructed Constructed initial) = Some 1).
Proof.
  split.
  - split; [reflexivity|].
    exact (proj1 (connect_guarded_by_open_sockets Constructed Constructed connected_state)
             eq_refl).
  - split; [reflexivity|].
    destruct (proj2 (connect_guarded_by_open_sockets Constructed Constructed initial)
                eq_refl) as (Hs & _ & _ & Hc & Hd).
    split; [exact Hs|]. split; [exact Hc | exact Hd].
Defined.

Lemma malformed_or_unknown_frame_dropped_witness :
  let opts := mkOptions true in
  let s := connected_state in
  (FlatJson.parse "{ oops" = None
   /\ status (ws_onmessage FlatJson.parse opts "{ oops" s) = connected
   /\ toasts (ws_onmessage FlatJson.parse opts "{ oops" s) = []
   /\ consoleErrors (ws_onmessage FlatJson.parse opts "{ oops" s)
      = ["TranscriptionWebSocket: Error parsing message:"])
  /\ (FlatJson.parse (FlatJson.frame "recording_start" "x")
      = Some (mkBackendMessage (Some "recording_start") (Some "x"))
      /\ ws_onmessage FlatJson.parse opts (FlatJson.frame "recording_start" "x") s = s).
Proof.
  intros opts s.
  destruct (malformed_or_unknown_frame_dropped FlatJson.parse opts) as (Hbad & Hunk & _).
  split.
  - split; [reflexivity|].
    destruct (Hbad "{ oops" s eq_refl) as (Hs & _ & _ & _ & _ & _ & _ & _ & Ht & _ & Hc).
    split; [exact Hs|]. split; [exact Ht | exact Hc].
  - split; [reflexivity|].
    exact (Hunk (FlatJson.frame "recording_start" "x")
             (mkBackendMessage (Some "recording_start") (Some "x")) s
             eq_refl eq_refl eq_refl).
Defined.

Lemma fullTranscript_of_golden_frames_witness :
  let opts := mkOptions true in
  let frames := [mkBackendMessage (Some "completed") (Some "Hi.");
                 mkBackendMessage (Some "fullSentence") (Some " How are you? ")] in
  forallb is_golden frames = true
  /\ fullTranscript connected_state = EmptyString
  /\ fullTranscript (process_frames opts frames connected_state) = " Hi.  How are you? ".
Proof.
  intros opts frames.
  split; [reflexivity|]. split; [reflexivity|].
  exact (proj1 (proj2 (fullTranscript_of_golden_frames opts frames connected_state eq_refl)
                  eq_refl)).
Defined.

Lemma golden_frame_keeps_realtimeText_witness :
  let opts := mkOptions true in
  let s := onmessage_try opts (mkBackendMessage (Some "realtime") (Some "I think"))
             connected_state in
  let data := mkBackendMessage (Some "fullSentence") (Some "I think so.") in
  (is_golden data = true /\ realtimeText (onmessage_try opts data s) = "I think")
  /\ (realtimeText (dispatch FlatJson.parse opts
                      (OnMessage 1 (FlatJson.frame "realtime" "so")) s)
      <> realtimeText s
      /\ exists i raw d,
           OnMessage 1 (FlatJson.frame "realtime" "so") = OnMessage i raw
           /\ FlatJson.parse raw = Some d /\ type_is d "realtime" = true
           /\ is_golden d = false).
Proof.
  intros opts s data.
  destruct (golden_frame_keeps_realtimeText FlatJson.parse opts) as (Hkeep & Honly).
  split.
  - split; [reflexivity | exact (Hkeep data s eq_refl)].
  - assert (Hne : realtimeText (dispatch FlatJson.parse opts
                                  (OnMessage 1 (FlatJson.frame "realtime" "so")) s)
                  <> realtimeText s) by (vm_compute; discriminate).
    split; [exact Hne | exact (Honly _ s Hne)].
Defined.

Lemma close_after_first_connect_witness :
  let opts := mkOptions true in
  let s1 := dispatch FlatJson.parse opts (OnOpen 1)
              (connect Constructed Constructed initial) in
  (status initial = disconnected
   /\ ref_is_open (wsRef initial) initial
      || ref_is_open (controlWsRef initial) initial = false)
  /\ status s1 = connected
  /\ status (dispatch FlatJson.parse opts (OnClose 1) s1) = connected
  /\ status (dispatch FlatJson.parse opts (OnClose 0) s1) = connected.
Proof.
  intros opts s1.
  split; [split; reflexivity|].
  exact (close_after_first_connect_keeps_connected FlatJson.parse opts initial
           eq_refl eq_refl).
Defined.

Lemma only_data_open_connects_witness :
  let opts := mkOptions true in
  let s := connect Constructed Constructed initial in
  (status (dispatch FlatJson.parse opts (OnOpen 1) s) = connected
   /\ status s <> connected)
  /\ exists i w, OnOpen 1 = OnOpen i /\ sockets s !! i = Some w /\ endpoint w = Data.
Proof.
  intros opts s.
  assert (H1 : status (dispatch FlatJson.parse opts (OnOpen 1) s) = connected)
    by reflexivity.
  assert (H2 : status s <> connected) by (vm_compute; discriminate).
  split; [split; assumption|].
  exact (only_data_open_connects FlatJson.parse opts (OnOpen 1) s H1 H2).
Defined.

Lemma transport_error_reported_witness :
  let opts := mkOptions true in
  let s := connect Constructed Constructed initial in
  let w := mkWebSocket Control CONNECTING [] disconnected in
  (sockets s !! 0 = Some w /\ readyState w <> CLOSED)
  /\ status (dispatch FlatJson.parse opts (OnError 0) s) = error
  /\ error_ (dispatch FlatJson.parse opts (OnError 0) s) <> None
  /\ length (toasts (dispatch FlatJson.parse opts (OnError 0) s)) = S (length (toasts s)).
Proof.
  intros opts s w.
  assert (H1 : sockets s !! 0 = Some w) by reflexivity.
  assert (H2 : readyState w <> CLOSED) by discriminate.
  split; [split; assumption|].
  exact (transport_error_reported FlatJson.parse opts 0 w s H1 H2).
Defined.

Lemma error_status_has_message_witness :
  let opts := mkOptions true in
  let evs := [CallConnect Constructed Constructed; OnError 1] in
  status (run FlatJson.parse opts evs initial) = error
  /\ exists message, error_ (run FlatJson.parse opts evs initial) = Some message.
Proof.
  intros opts evs. split; [reflexivity|].
  exact (error_status_has_message FlatJson.parse opts evs eq_refl).
Defined.

Lemma transcript_changes_only_by_golden_append_witness :
  let opts := mkOptions true in
  let ev := OnMessage 1 (FlatJson.frame "completed" "Hi.") in
  (fullSentences (dispatch FlatJson.parse opts ev connected_state)
   <> fullSentences connected_state
   \/ fullTranscript (dispatch FlatJson.parse opts ev connected_state)
      <> fullTranscript connected_state)
  /\ exists i raw data,
       ev = OnMessage i raw /\ FlatJson.parse raw = Some data /\ is_golden data = true
       /\ fullSentences (dispatch FlatJson.parse opts ev connected_state)
          = fullSentences connected_state ++ [sentence_of data]
       /\ fullTranscript (dispatch FlatJson.parse opts ev connected_state)
          = (fullTranscript connected_state ++ " " ++ sentence_of data)%string.
Proof.
  intros opts ev.
  assert (H : fullSentences (dispatch FlatJson.parse opts ev connected_state)
              <> fullSentences connected_state
              \/ fullTranscript (dispatch FlatJson.parse opts ev connected_state)
                 <> fullTranscript connected_state)
    by (left; vm_compute; discriminate).
  split; [exact H|].
  exact (transcript_changes_only_by_golden_append FlatJson.parse opts ev connected_state H).
Defined.

Lemma reconnect_sees_close_witness :
  let opts := mkOptions true in
  let s := run FlatJson.parse opts [CallConnect Constructed Constructed; OnError 1] initial in
  let s0 := connect Constructed Constructed s in
  let s1 := dispatch FlatJson.parse opts (OnOpen 3) s0 in
  (status s <> disconnected
   /\ ref_is_open (wsRef s) s || ref_is_open (controlWsRef s) s = false)
  /\ status s0 = connecting /\ error_ s0 = None
  /\ status s1 = connected
  /\ status (dispatch FlatJson.parse opts (OnClose 3) s1) = disconnected
  /\ status (dispatch FlatJson.parse opts (OnClose 2) s1) = disconnected.
Proof.
  intros opts s s0 s1.
  assert (H1 : status s <> disconnected) by (vm_compute; discriminate).
  assert (H2 : ref_is_open (wsRef s) s || ref_is_open (controlWsRef s) s = false)
    by reflexivity.
  split; [split; assumption|].
  exact (reconnect_sees_close FlatJson.parse opts s H1 H2).
Defined.

Lemma provisional_then_golden_emits_once_witness :
  let opts := mkOptions true in
  let frames := [mkBackendMessage (Some "realtime") (Some "So");
                 mkBackendMessage (Some "realtime") (Some "So it is.")] in
  let data := mkBackendMessage (Some "fullSentence") (Some "So it is.") in
  let s' := onmessage_try opts data (process_frames opts frames connected_state) in
  (forallb (fun d => type_is d "realtime") frames = true
   /\ is_golden data = true
   /\ debounceTimerRef connected_state = None
   /\ handles_fresh connected_state = true)
  /\ processed s' = ["So it is."] /\ timeouts s' = [] /\ debounceTimerRef s' = None.
Proof.
  intros opts frames data s'.
  split; [repeat split; reflexivity|].
  exact (provisional_then_golden_emits_once opts frames data connected_state
           eq_refl eq_refl eq_refl eq_refl).
Defined.

Lemma unmount_sends_stop_then_closes_witness :
  let opts := mkOptions true in
  let s := connected_state in
  let w := mkWebSocket Control OPEN [] disconnected in
  let s1 := unmount_cleanup s in
  let s2 := dispatch FlatJson.parse opts (TimeoutFires 1) s1 in
  (controlWsRef s = Some 0 /\ sockets s !! 0 = Some w /\ readyState w = OPEN
   /\ handles_fresh s = true)
  /\ sockets s1 !! 0 = Some (mkWebSocket Control OPEN [stopCommand] disconnected)
  /\ controlWsRef s2 = None /\ wsRef s2 = None
  /\ exists w2, sockets s2 !! 0 = Some w2 /\ readyState w2 = CLOSING
                /\ sent w2 = [stopCommand].
Proof.
  intros opts s w s1 s2.
  split; [repeat split; reflexivity|].
  destruct (unmount_sends_stop_then_closes FlatJson.parse opts s 0 w
              eq_refl eq_refl eq_refl eq_refl)
    as (H1 & _ & _ & H4 & H5 & H6 & _).
  split; [exact H1|]. split; [exact H4|]. split; [exact H5|exact H6].
Defined.

(** *** Where the stated behaviour and the hook part *)

(** C1. After the fallback timer has emitted "Hello there.", a golden
    frame with the same text is appended and emitted again: the consumer
    receives the sentence twice. *)
Lemma duplicate_emission_after_fallback :
  let opts := mkOptions true in
  let s1 := run FlatJson.parse opts
              [CallConnect Constructed Constructed; OnOpen 0; OnOpen 1;
               OnMessage 1 (FlatJson.frame "realtime" "Hello there.");
               TimeoutFires 1] initial in
  let s2 := dispatch FlatJson.parse opts
              (OnMessage 1 (FlatJson.frame "completed" "Hello there.")) s1 in
  processed s1 = ["Hello there."]
  /\ processed s2 = ["Hello there."; "Hello there."]
  /\ fullSentences s2 = ["Hello there."]
  /\ ~ (count_occ string_dec (processed s2) "Hello there." <= 1).
Proof.
  intros opts s1 s2. split; [reflexivity|]. split; [reflexivity|].
  split; [reflexivity|].
  vm_compute. intros H. inversion H as [|? H1]. inversion H1.
Qed.

(** C2. After the realtime frame "Hello there." and the firing of the
    fallback timer the committed transcript is still empty. *)
Lemma fallback_timer_commits_nothing :
  let opts := mkOptions true in
  let s := run FlatJson.parse opts
             [CallConnect Constructed Constructed; OnOpen 0; OnOpen 1;
              OnMessage 1 (FlatJson.frame "realtime" "Hello there.");
              TimeoutFires 1] initial in
  processed s = ["Hello there."]
  /\ fullTranscript s = EmptyString /\ fullSentences s = []
  /\ fullTranscript s <> "Hello there." /\ fullSentences s <> ["Hello there."].
Proof.
  intros opts s. repeat split; try reflexivity; vm_compute; discriminate.
Qed.

(** C3. The timer armed by "Hi." fires after the preview has become
    "Hi. How are you?": the consumer receives "Hi.", which is not the
    trimmed provisional text at the time of firing. *)
Lemma fallback_emits_stale_text :
  let opts := mkOptions true in
  let before := run FlatJson.parse opts
                  [CallConnect Constructed Constructed; OnOpen 0; OnOpen 1;
                   OnMessage 1 (FlatJson.frame "realtime" "Hi.");
                   OnMessage 1 (FlatJson.frame "realtime" "Hi. How are you?")] initial in
  let after := dispatch FlatJson.parse opts (TimeoutFires 1) before in
  JsString.trim (realtimeText before) = "Hi. How are you?"
  /\ processed before = []
  /\ processed after = ["Hi."]
  /\ processed after <> [JsString.trim (realtimeText before)].
Proof.
  intros opts before after. repeat split; try reflexivity. vm_compute. discriminate.
Qed.

(** C4. A golden frame whose text is three spaces, and one without text,
    both change the transcript; the first is also handed to the consumer,
    untrimmed.  A golden frame with surrounding blanks is appended with
    them. *)
Lemma blank_golden_frame_is_not_a_noop :
  let opts := mkOptions true in
  let s := connected_state in
  let blank := ws_onmessage FlatJson.parse opts (FlatJson.frame "completed" "   ") s in
  let missing := ws_onmessage FlatJson.parse opts (FlatJson.frame_no_text "completed") s in
  let padded := ws_onmessage FlatJson.parse opts (FlatJson.frame "completed" " Hi. ") s in
  JsString.trim "   " = EmptyString
  /\ fullSentences blank = ["   "] /\ fullTranscript blank = "    "
  /\ processed blank = ["   "]
  /\ fullSentences missing = [EmptyString] /\ fullTranscript missing = " "
  /\ processed missing = []
  /\ fullSentences missing <> fullSentences s
  /\ fullTranscript missing <> fullTranscript s
  /\ processed padded = [" Hi. "] /\ processed padded <> [JsString.trim " Hi. "].
Proof.
  intros opts s blank missing padded.
  repeat split; try reflexivity; vm_compute; discriminate.
Qed.

(** C6. While the status is connecting and both sockets are still
    CONNECTING, a second connect creates two more sockets and replaces
    both handles. *)
Lemma connect_while_connecting_reopens :
  let s := connect Constructed Constructed initial in
  let s' := connect Constructed Constructed s in
  status s = connecting
  /\ wsRef s = Some 1 /\ controlWsRef s = Some 0 /\ length (sockets s) = 2
  /\ wsRef s' = Some 3 /\ controlWsRef s' = Some 2 /\ length (sockets s') = 4
  /\ s' <> s.
Proof.
  intros s s'. repeat split; try reflexivity. vm_compute. discriminate.
Qed.

(** *** Examples *)

Example trim_removes_blanks : JsString.trim "  Hello there.  " = "Hello there.".
Proof. reflexivity. Qed.

Example endsWith_examples :
  JsString.endsWith "Hello there." "." = true
  /\ JsString.endsWith "I think" "." = false
  /\ JsString.endsWith EmptyString "." = false.
Proof. repeat split; reflexivity. Qed.

Example parse_examples :
  FlatJson.parse (FlatJson.frame "realtime" "Hello there.")
  = Some (mkBackendMessage (Some "realtime") (Some "Hello there."))
  /\ FlatJson.parse (FlatJson.frame_no_text "completed")
     = Some (mkBackendMessage (Some "completed") None)
  /\ FlatJson.parse "not json" = None.
Proof. repeat split; reflexivity. Qed.

(** The unused helper trims and skips blank sentences, unlike the golden
    branch. *)
Example triggerProcessing_examples :
  triggerProcessing (mkOptions true) "   " connected_state = connected_state
  /\ processed (triggerProcessing (mkOptions true) " Hi. " connected_state) = ["Hi."].
Proof. split; reflexivity. Qed.

(** Scenario of the specification: the provisional text "I think" arms no
    timer, and the golden frame that follows is the only emission. *)
Example unpunctuated_provisional_then_golden :
  let s := run FlatJson.parse (mkOptions true)
             [CallConnect Constructed Constructed; OnOpen 0; OnOpen 1;
              OnMessage 1 (FlatJson.frame "realtime" "I think");
              OnMessage 1 (FlatJson.frame "fullSentence" "I think so.")] initial in
  timeouts s = [] /\ processed s = ["I think so."] /\ fullSentences s = ["I think so."].
Proof. repeat split; reflexivity. Qed.

(** The first connection of a mounted hook: neither close event brings the
    status back to disconnected. *)
Example first_connection_closes :
  status (run FlatJson.parse (mkOptions true)
            [CallConnect Constructed Constructed; OnOpen 0; OnOpen 1; OnClose 1] initial)
  = connected
  /\ status (run FlatJson.parse (mkOptions true)
               [CallConnect Constructed Constructed; OnOpen 0; OnOpen 1; OnClose 0] initial)
     = connected
  /\ status (run FlatJson.parse (mkOptions true)
               [CallConnect Constructed Constructed; OnOpen 0; OnOpen 1;
                OnClose 0; OnClose 1] initial)
     = connected.
Proof. repeat split; reflexivity. Qed.

(** A timer pending at disconnect does not emit afterwards. *)
Example disconnect_then_timer :
  let s := run FlatJson.parse (mkOptions true)
             [CallConnect Constructed Constructed; OnOpen 0; OnOpen 1;
              OnMessage 1 (FlatJson.frame "realtime" "Done.");
              CallDisconnect; TimeoutFires 1] initial in
  processed s = [] /\ status s = disconnected.
Proof. repeat split; reflexivity. Qed.

End TranscriptionWS.

(** ** Facts about the string primitives *)

Module JsStringFacts.

Import JsString.


Lemma length_append (a b : string) :
  String.length (a ++ b) = String.length a + String.length b.
Proof. induction a as [|c a IH]; simpl; [reflexivity | now rewrite IH]. Qed.

(** A string of blanks only. *)
Lemma trimEnd_empty (s : string) :
  trimEnd s = EmptyString <-> forallb isWhiteSpace (chars s) = true.
Proof.
  induction s as [|c s IH]; simpl; [tauto|].
  destruct (trimEnd s) eqn:E.
  - destruct (isWhiteSpace c); simpl.
    + tauto.
    + split; discriminate.
  - split; [discriminate|].
    intros H. apply andb_true_iff in H as [_ H]. apply IH in H. discriminate.
Qed.

Lemma trimStart_blank (s : string) :
  forallb isWhiteSpace (chars (trimStart s)) = forallb isWhiteSpace (chars s).
Proof.
  induction s as [|c s IH]; simpl; [reflexivity|].
  destruct (isWhiteSpace c) eqn:E; simpl; [exact IH | now rewrite E].
Qed.

(** trim gives the empty string exactly on strings of blanks. *)
Lemma trim_empty_iff (s : string) :
  trim s = EmptyString <-> forallb isWhiteSpace (chars s) = true.
Proof. unfold trim. now rewrite trimEnd_empty, trimStart_blank. Qed.

Lemma truthy_trim (s : string) :
  truthy (trim s) = negb (forallb isWhiteSpace (chars s)).
Proof.
  destruct (forallb isWhiteSpace (chars s)) eqn:E.
  - apply trim_empty_iff in E. now rewrite E.
  - destruct (trim s) eqn:Et; [|reflexivity].
    apply trim_empty_iff in Et. congruence.
Qed.

(** Splitting a string without separator gives that one piece. *)
Lemma split_without_sep (sep : ascii) (t : string) :
  forallb (fun c => negb (Ascii.eqb c sep)) (chars t) = true ->
  split sep t = [t].
Proof.
  induction t as [|c t IH]; simpl; [reflexivity|].
  intros H. apply andb_true_iff in H as [Hc Ht].
  rewrite (IH Ht). apply negb_true_iff in Hc. now rewrite Hc.
Qed.

Lemma split_nonempty (sep : ascii) (s : string) : split sep s <> [].
Proof.
  destruct s as [|c s]; simpl; [discriminate|].
  destruct (split sep s); [discriminate|].
  destruct (Ascii.eqb c sep); discriminate.
Qed.

(** A piece without separator in front of a separator is split off. *)
Lemma split_piece (sep : ascii) (t u : string) :
  forallb (fun c => negb (Ascii.eqb c sep)) (chars t) = true ->
  split sep (t ++ String sep u) = t :: split sep u.
Proof.
  induction t as [|c t IH]; simpl; intros H.
  - rewrite Ascii.eqb_refl.
    destruct (split sep u) eqn:E; [now apply split_nonempty in E|reflexivity].
  - apply andb_true_iff in H as [Hc Ht].
    rewrite (IH Ht). apply negb_true_iff in Hc. now rewrite Hc.
Qed.

(** The last piece of a split is what follows the last separator. *)
Lemma split_ends_with_last_piece (sep : ascii) (base ext : string) :
  forallb (fun c => negb (Ascii.eqb c sep)) (chars ext) = true ->
  exists p front, split sep (base ++ String sep ext) = (p :: front) ++ [ext].
Proof.
  intros Hext. induction base as [|c base (p & front & IH)]; simpl.
  - rewrite Ascii.eqb_refl, (split_without_sep sep ext Hext).
    exists EmptyString, []. reflexivity.
  - rewrite IH. simpl. destruct (Ascii.eqb c sep).
    + exists EmptyString, (p :: front). reflexivity.
    + exists (String c p), front. reflexivity.
Qed.

Lemma pop_split_after_sep (sep : ascii) (base ext : string) :
  forallb (fun c => negb (Ascii.eqb c sep)) (chars ext) = true ->
  pop (split sep (base ++ String sep ext)) = Some ext.
Proof.
  intros Hext. unfold pop.
  destruct (split_ends_with_last_piece sep base ext Hext) as (p & front & ->).
  apply last_snoc.
Qed.

End JsStringFacts.

(** ** Facts about the notes editor *)

Module NotesEditorFacts.

Import JsString NotesEditor.




(** X15. The import handler goes by what follows the last dot of the
    chosen path, in lower case, and by the whole path when it has no dot.
    A file whose extension is txt or md in any letter case replaces the
    markdown with its content and switches to editing, without toast and
    without touching the file input. *)
Theorem import_goes_by_extension
    (base ext content : string) (hasInput : bool) (st : Editor) :
  forallb (fun c => negb (Ascii.eqb c "."%char)) (chars ext) = true ->
  extension_of (base ++ String "."%char ext) = Some (toLowerCase ext)
  /\ extension_of ext = Some (toLowerCase ext)
  /\ (toLowerCase ext = "txt" \/ toLowerCase ext = "md" ->
      handleImport hasInput (OpenFile content (base ++ String "."%char ext)) st
      = mkEditor content true (toasts st) (fileInputClicks st))
  /\ (toLowerCase ext = "docx" \/ toLowerCase ext = "pdf" ->
      handleImport hasInput (OpenFile content (base ++ String "."%char ext)) st
      = click_file_input hasInput st).
Proof.
  intros Hext.
  assert (E : extension_of (base ++ String "."%char ext) = Some (toLowerCase ext)).
  { unfold extension_of. now rewrite (JsStringFacts.pop_split_after_sep _ base ext Hext). }
  split; [exact E|]. split.
  - unfold extension_of. now rewrite (JsStringFacts.split_without_sep _ ext Hext).
  - split; intros [H|H]; unfold handleImport; rewrite E; unfold ext_is; rewrite H;
      reflexivity.
Qed.

Lemma import_goes_by_extension_witness :
  let st := mkEditor "old notes" false [] 0 in
  forallb (fun c => negb (Ascii.eqb c "."%char)) (chars "MD") = true
  /\ extension_of "notes.v2.MD" = Some "md"
  /\ handleImport true (OpenFile "# New" "notes.v2.MD") st = mkEditor "# New" true [] 0.
Proof.
  intros st. split; [reflexivity|].
  destruct (import_goes_by_extension "notes.v2" "MD" "# New" true st eq_refl)
    as (H1 & _ & H3 & _).
  split; [exact H1|]. apply H3. right. reflexivity.
Defined.

End NotesEditorFacts.

(** ** Facts about the meeting page *)

Module MeetingPageFacts.

Import JsString MeetingPage.

Lemma split_join (l : list string) :
  forallb one_line l = true -> l <> [] ->
  split newline (join (String newline EmptyString) l) = l.
Proof.
  induction l as [|t l IH]; intros Hall Hne; [contradiction|].
  simpl in Hall. apply andb_true_iff in Hall as [Ht Hl].
  destruct l as [|u l].
  - simpl. now apply JsStringFacts.split_without_sep.
  - change (join (String newline EmptyString) (t :: u :: l))
      with (t ++ String newline (join (String newline EmptyString) (u :: l)))%string.
    rewrite (JsStringFacts.split_piece newline t _ Ht).
    rewrite (IH Hl); [reflexivity|discriminate].
Qed.

(** X16. The page recovers the sentences from a transcript in which they
    are joined by line feeds: for sentences that hold no line feed, the
    parsed list is the list of the non-empty ones, in order.  Empty
    sentences, and so leading, trailing and doubled line feeds, leave no
    trace. *)
Theorem fullSentences_of_joined (l : list string) :
  forallb one_line l = true ->
  fullSentences (join (String newline EmptyString) l) = List.filter truthy l.
Proof.
  intros Hall. unfold fullSentences.
  destruct l as [|t l]; [reflexivity|].
  assert (Hs := split_join (t :: l) Hall ltac:(discriminate)).
  destruct (truthy (join (String newline EmptyString) (t :: l))) eqn:E.
  - now rewrite Hs.
  - destruct (join (String newline EmptyString) (t :: l)); [|discriminate].
    simpl in Hs. now rewrite <- Hs.
Qed.

Lemma fullSentences_of_joined_witness :
  let l := ["Hello there."; EmptyString; "How are you?"] in
  forallb one_line l = true
  /\ fullSentences (join (String newline EmptyString) l)
     = ["Hello there."; "How are you?"].
Proof.
  intros l. split; [reflexivity|].
  exact (fullSentences_of_joined l eq_refl).
Defined.

End MeetingPageFacts.

(** ** Facts about the call controls *)

Module MeetingControlsFacts.

Import JsString MeetingControls.

Lemma decimal_value_toString (n : nat) : decimal_value (Number_toString n) = Some n.
Proof.
  unfold decimal_value, Number_toString, NilZero.string_of_uint.
  destruct (Nat.to_uint n) eqn:E;
    try (rewrite <- E at 1; rewrite NilEmpty.usu; simpl;
         now rewrite DecimalNat.Unsigned.of_to).
  simpl. f_equal. rewrite <- (DecimalNat.Unsigned.of_to n), E. reflexivity.
Qed.

Lemma decimal_value_zero_prefix (s : string) (n : nat) :
  decimal_value s = Some n -> decimal_value (String "0"%char s) = Some n.
Proof.
  unfold decimal_value. simpl.
  destruct (NilEmpty.uint_of_string s) as [d|]; simpl; [|discriminate].
  intros H. inversion H. reflexivity.
Qed.

Lemma padStart_value (s : string) (n : nat) :
  decimal_value s = Some n -> decimal_value (padStart 2 "0"%char s) = Some n.
Proof.
  intros H. unfold padStart.
  destruct (String.length s) as [|[|k]]; simpl.
  - now apply decimal_value_zero_prefix, decimal_value_zero_prefix.
  - now apply decimal_value_zero_prefix.
  - exact H.
Qed.

Lemma padStart_length (s : string) :
  String.length (padStart 2 "0"%char s) = Nat.max 2 (String.length s).
Proof.
  unfold padStart. rewrite JsStringFacts.length_append.
  destruct (String.length s) as [|[|k]]; simpl; lia.
Qed.

Lemma two_digits (k : nat) : k < 100 -> String.length (Number_toString k) <= 2.
Proof.
  intros Hk.
  assert (H : forallb (fun k => (String.length (Number_toString k) <=? 2)%nat) (seq 0 100) = true)
    by (vm_compute; reflexivity).
  rewrite forallb_forall in H.
  apply Nat.leb_le, H, in_seq. lia.
Qed.

(** X17. formatTime shows minutes, a colon and seconds: the seconds part
    always has exactly two digits and denotes seconds mod 60, the minutes
    part has at least two digits and denotes the whole minutes, so the
    duration can be read back from the text; below 100 minutes the text
    has exactly five characters. *)
Theorem formatTime_shape (seconds : nat) :
  exists mm ss,
    formatTime seconds = (mm ++ ":" ++ ss)%string
    /\ String.length ss = 2
    /\ 2 <= String.length mm
    /\ decimal_value mm = Some (seconds / 60)
    /\ decimal_value ss = Some (seconds mod 60)
    /\ (seconds < 60 * 100 -> String.length (formatTime seconds) = 5).
Proof.
  exists (padStart 2 "0"%char (Number_toString (seconds / 60))),
         (padStart 2 "0"%char (Number_toString (seconds mod 60))).
  assert (Hss : String.length (padStart 2 "0"%char (Number_toString (seconds mod 60))) = 2).
  { rewrite padStart_length.
    assert (seconds mod 60 < 60) by (apply Nat.mod_upper_bound; lia).
    pose proof (two_digits (seconds mod 60)). lia. }
  split; [reflexivity|]. split; [exact Hss|]. split.
  { rewrite padStart_length. lia. }
  split; [apply padStart_value, decimal_value_toString|].
  split; [apply padStart_value, decimal_value_toString|].
  intros Hlt.
  assert (Hm : seconds / 60 < 100) by (apply Nat.Div0.div_lt_upper_bound; exact Hlt).
  apply two_digits in Hm.
  unfold formatTime. cbv zeta.
  rewrite !JsStringFacts.length_append, Hss, padStart_length.
  remember (String.length (Number_toString (seconds / 60))) as len.
  simpl. lia.
Qed.

End MeetingControlsFacts.

(** ** Facts about the floating notes container *)

Module DraggableContainerFacts.

Import DraggableContainer.
Local Open Scope Z_scope.

(** X18. While a drag is in progress a mouse move puts the widget at the
    pointer minus the offset taken at mouse down, clamped to the window:
    the new position is never left of or above the window, and when the
    widget fits into the window it lies wholly inside; a pointer target
    that is already inside is taken as it is.  With the offset that mouse
    down computes from the widget's own corner, the widget moves by the
    displacement of the pointer. *)
Theorem drag_keeps_widget_in_window (p : Props) (w : Window) (client : Point)
    (st : Container) :
  isDragging st = true ->
  let st' := handleMouseMove p w client st in
  let maxX := innerWidth w - width (currentSize p) in
  let maxY := innerHeight w - height (currentSize p) in
  0 <= x (position st') /\ 0 <= y (position st')
  /\ (0 <= maxX -> x (position st') + width (currentSize p) <= innerWidth w)
  /\ (0 <= maxY -> y (position st') + height (currentSize p) <= innerHeight w)
  /\ (0 <= x client - x (dragOffset st) <= maxX ->
      x (position st') = x client - x (dragOffset st))
  /\ (0 <= y client - y (dragOffset st) <= maxY ->
      y (position st') = y client - y (dragOffset st))
  /\ (forall down : Point,
        position (handleMouseMove p w client
                    (handleMouseDown down (Some (position st)) st))
        = mkPoint
            (Z.max 0 (Z.min (x (position st) + (x client - x down)) maxX))
            (Z.max 0 (Z.min (y (position st) + (y client - y down)) maxY))).
Proof.
  intros Hd st' maxX maxY. subst st'. unfold handleMouseMove. rewrite Hd. simpl.
  fold maxX maxY.
  repeat split; try lia.
  intros down. f_equal; f_equal; f_equal; lia.
Qed.

Lemma drag_keeps_widget_in_window_witness :
  let p := mkProps true (mkSize 300 400) (mkSize 120 40) in
  let w := mkWindow 1280 720 in
  let st := mkContainer (mkPoint 1140 640) true (mkPoint 10 10) in
  let st' := handleMouseMove p w (mkPoint 1500 (-20)) st in
  isDragging st = true
  /\ 0 <= x (position st') /\ 0 <= y (position st')
  /\ x (position st') + 300 <= 1280.
Proof.
  intros p w st st'. split; [reflexivity|].
  destruct (drag_keeps_widget_in_window p w (mkPoint 1500 (-20)) st eq_refl)
    as (Hx & Hy & Hr & _).
  split; [exact Hx|]. split; [exact Hy|]. apply Hr. vm_compute. discriminate.
Defined.

(** X19. The adjustment made on a window resize, and when the widget is
    expanded or collapsed, only ever moves the widget to the left and up:
    the result is within the right and bottom edges, a position already
    within them is kept, the drag state is untouched, and a second
    adjustment for the same window changes nothing.  It sets no lower
    bound: when the window is smaller than the widget the coordinate is the
    negative difference. *)
Theorem resize_adjustment (p : Props) (w : Window) (st : Container) :
  let st' := handleResize p w st in
  let maxX := innerWidth w - width (currentSize p) in
  let maxY := innerHeight w - height (currentSize p) in
  x (position st') <= x (position st) /\ y (position st') <= y (position st)
  /\ x (position st') <= maxX /\ y (position st') <= maxY
  /\ (x (position st) <= maxX -> x (position st') = x (position st))
  /\ (y (position st) <= maxY -> y (position st') = y (position st))
  /\ (maxX < x (position st) -> x (position st') = maxX)
  /\ isDragging st' = isDragging st /\ dragOffset st' = dragOffset st
  /\ handleResize p w st' = st'.
Proof.
  intros st' maxX maxY. subst st'. unfold handleResize. simpl. fold maxX maxY.
  repeat split; try lia.
  f_equal. f_equal; lia.
Qed.

End DraggableContainerFacts.

(** ** Facts about the progress of a save *)

Module SaveProgressFacts.

Import SaveProgress.
Local Open Scope Z_scope.

Lemma progress_after_succ (saveProgress : Z) (n : nat) :
  progress_after saveProgress (S n)
  = progress_tick saveProgress (progress_after saveProgress n).
Proof. reflexivity. Qed.

(** X20. The progress animation of handleSave: when the save is not
    tracked by the parent (saveProgress is 0) the shown progress after n
    ticks of the interval is 10 + 5n until it reaches 90 and stays there,
    so the animation alone never shows more than 90; when handleSave was
    called with a saveProgress other than 0 the interval does not move the
    progress at all. *)
Theorem progress_animation (n : nat) :
  progress_after 0 n = Z.min (10 + 5 * Z.of_nat n) 90
  /\ progress_after 0 n <= 90
  /\ (forall saveProgress, saveProgress <> 0 -> progress_after saveProgress n = 10).
Proof.
  assert (H : progress_after 0 n = Z.min (10 + 5 * Z.of_nat n) 90).
  { induction n as [|n IH]; [reflexivity|].
    rewrite progress_after_succ, IH. unfold progress_tick.
    destruct (Z.ltb_spec (Z.min (10 + 5 * Z.of_nat n) 90) 90); simpl; lia. }
  split; [exact H|]. split; [lia|].
  intros sp Hsp. clear H. induction n as [|n IH]; [reflexivity|].
  rewrite progress_after_succ, IH. unfold progress_tick.
  destruct (Z.eqb_spec sp 0); [contradiction|]. now rewrite andb_false_r.
Qed.

End SaveProgressFacts.

(** ** Facts about the stop sequences *)

Module ModelSettingsTabFacts.

Import ModelSettingsTab.

Lemma includes_In (l : list string) (x : string) :
  includes l x = true <-> In x l.
Proof.
  unfold includes. rewrite existsb_exists. split.
  - intros (y & Hy & E). apply String.eqb_eq in E. now subst.
  - intros H. exists x. split; [exact H | apply String.eqb_refl].
Qed.

Lemma filter_other (x : string) (l : list string) :
  ~ In x l -> List.filter (fun seq => negb (String.eqb seq x)) l = l.
Proof.
  induction l as [|y l IH]; simpl; [reflexivity|].
  intros H. destruct (String.eqb_spec y x) as [->|Hne]; simpl.
  - exfalso. apply H. now left.
  - rewrite IH; [reflexivity|]. intros Hin. apply H. now right.
Qed.

(** X21. The list of stop sequences stays free of duplicates and of the
    empty string: if it is so before, it is so after addStopSequence with
    any draft and after removeStopSequence of any sequence. *)
Theorem stop_sequences_stay_distinct (OtherSettings : Type) (t : Tab OtherSettings)
    (sequence : string) :
  sequences_ok (stopSequences _ (settings _ t)) ->
  sequences_ok (stopSequences _ (settings _ (addStopSequence _ t)))
  /\ sequences_ok (stopSequences _ (settings _ (removeStopSequence _ sequence t))).
Proof.
  intros [Hnd Hne]. split.
  - unfold addStopSequence.
    destruct (JsString.truthy (stopSequence _ t)) eqn:Ht; simpl; [|split; assumption].
    destruct (includes (stopSequences _ (settings _ t)) (stopSequence _ t)) eqn:Hi;
      simpl; [split; assumption|].
    assert (Hnew : ~ In (stopSequence _ t) (stopSequences _ (settings _ t))).
    { intros Hin. apply includes_In in Hin. congruence. }
    split.
    + apply List.NoDup_app; [exact Hnd | repeat constructor; intros [] |].
      intros a Ha [E|[]]. subst a. contradiction.
    + intros Hin. apply in_app_or in Hin as [Hin|[E|[]]]; [contradiction|].
      rewrite E in Ht. discriminate.
  - simpl. split.
    + now apply List.NoDup_filter.
    + intros Hin. apply filter_In in Hin as [Hin _]. contradiction.
Qed.

Lemma stop_sequences_stay_distinct_witness :
  let t := mkTab unit (mkModelSettings unit ["END"] tt) "STOP" in
  sequences_ok (stopSequences _ (settings _ t))
  /\ sequences_ok (stopSequences _ (settings _ (addStopSequence _ t)))
  /\ sequences_ok (stopSequences _ (settings _ (removeStopSequence _ "END" t))).
Proof.
  intros t.
  assert (H : sequences_ok (stopSequences _ (settings _ t))).
  { split; [repeat constructor; intros [] | intros [E|[]]; discriminate]. }
  split; [exact H|].
  exact (stop_sequences_stay_distinct unit t "END" H).
Defined.

(** X22. Removing a stop sequence leaves no occurrence of it and keeps the
    other sequences in order; adding a non-empty draft that is not yet in
    the list and removing it again gives back the settings as they were,
    and the add has cleared the draft. *)
Theorem add_then_remove_stop_sequence (OtherSettings : Type) (t : Tab OtherSettings)
    (sequence : string) :
  (includes (stopSequences _ (settings _ (removeStopSequence _ sequence t))) sequence
   = false)
  /\ (JsString.truthy (stopSequence _ t) = true ->
      includes (stopSequences _ (settings _ t)) (stopSequence _ t) = false ->
      settings _ (removeStopSequence _ (stopSequence _ t) (addStopSequence _ t))
      = settings _ t
      /\ stopSequence _ (addStopSequence _ t) = EmptyString
      /\ includes (stopSequences _ (settings _ (addStopSequence _ t))) (stopSequence _ t)
         = true).
Proof.
  split.
  - simpl. destruct (includes _ sequence) eqn:E; [|reflexivity].
    apply includes_In, filter_In in E as [_ E].
    rewrite String.eqb_refl in E. discriminate.
  - intros Ht Hi. unfold addStopSequence. rewrite Ht, Hi. simpl.
    assert (Hnew : ~ In (stopSequence _ t) (stopSequences _ (settings _ t))).
    { intros Hin. apply includes_In in Hin. congruence. }
    split; [|split; [reflexivity|]].
    + rewrite List.filter_app. simpl. rewrite String.eqb_refl. simpl.
      rewrite app_nil_r, (filter_other _ _ Hnew).
      now destruct (settings _ t).
    + apply includes_In, in_or_app. right. now left.
Qed.

Lemma add_then_remove_stop_sequence_witness :
  let t := mkTab unit (mkModelSettings unit ["END"] tt) "STOP" in
  (JsString.truthy (stopSequence _ t) = true
   /\ includes (stopSequences _ (settings _ t)) (stopSequence _ t) = false)
  /\ stopSequences _ (settings _ (addStopSequence _ t)) = ["END"; "STOP"]
  /\ settings _ (removeStopSequence _ "STOP" (addStopSequence _ t)) = settings _ t.
Proof.
  intros t. split; [split; reflexivity|]. split; [reflexivity|].
  exact (proj1 (proj2 (add_then_remove_stop_sequence unit t "STOP") eq_refl eq_refl)).
Defined.

End ModelSettingsTabFacts.

(** ** Facts about the chat input *)

Module ChatInputFacts.

Import JsString ChatInput.

(** X23. Submitting the chat form sends a message exactly when the client
    is available and the input holds a character that is not a blank: then
    onSendMessage receives the input as typed, untrimmed, and the input is
    cleared; otherwise nothing is sent and the input stays. *)
Theorem submit_sends_unless_blank (isClientAvailable : bool) (st : Input) :
  (forallb isWhiteSpace (chars (inputValue st)) = false /\ isClientAvailable = true ->
   handleSubmit isClientAvailable st
   = mkInput EmptyString (sentMessages st ++ [inputValue st]))
  /\ (forallb isWhiteSpace (chars (inputValue st)) = true \/ isClientAvailable = false ->
      handleSubmit isClientAvailable st = st).
Proof.
  unfold handleSubmit. rewrite JsStringFacts.truthy_trim. split.
  - intros [-> ->]. reflexivity.
  - intros [->| ->]; [reflexivity|]. now rewrite andb_false_r.
Qed.

Lemma submit_sends_unless_blank_witness :
  (forallb isWhiteSpace (chars " hi ") = false
   /\ handleSubmit true (mkInput " hi " []) = mkInput EmptyString [" hi "])
  /\ (forallb isWhiteSpace (chars "   ") = true
      /\ handleSubmit true (mkInput "   " []) = mkInput "   " []).
Proof.
  split.
  - split; [reflexivity|].
    exact (proj1 (submit_sends_unless_blank true (mkInput " hi " []))
             (conj eq_refl eq_refl)).
  - split; [reflexivity|].
    exact (proj2 (submit_sends_unless_blank true (mkInput "   " []))
             (or_introl eq_refl)).
Defined.

End ChatInputFacts.

(** ** The fallback timer and blank previews *)

Module FallbackEdgeFacts.

Import JsString TranscriptionWS.

(** X13. A realtime frame whose text is missing, empty or made of blanks
    only replaces the preview and does nothing else: no fallback timer is
    armed and nothing is emitted, whatever the state. *)
Theorem blank_realtime_never_arms
    (options : TranscriptionWebSocketOptions) (data : BackendMessage) (s : Hook) :
  type_is data "realtime" = true ->
  forallb isWhiteSpace (chars (sentence_of data)) = true ->
  onmessage_try options data s = setRealtimeText (sentence_of data) s.
Proof.
  intros Hr Hb. apply realtime_incomplete; [exact Hr|].
  unfold arms_timer. apply JsStringFacts.trim_empty_iff in Hb. now rewrite Hb.
Qed.

Lemma blank_realtime_never_arms_witness :
  let data := mkBackendMessage (Some "realtime") (Some "   ") in
  (type_is data "realtime" = true
   /\ forallb isWhiteSpace (chars (sentence_of data)) = true)
  /\ onmessage_try (mkOptions true) data connected_state
     = setRealtimeText "   " connected_state.
Proof.
  intros data. split; [split; reflexivity|].
  exact (blank_realtime_never_arms (mkOptions true) data connected_state eq_refl eq_refl).
Defined.

End FallbackEdgeFacts.

(** ** Facts about the emergency data *)

Module EmergencySaveFacts.

Import EmergencySave.
Local Open Scope Z_scope.

Section Effects.

Variable JSON_parse : string -> option SavedData.
Variable Date_getTime : option string -> option Z.
Variable JSON_stringify : string -> string -> string -> string -> string.

Lemma getItem_removeItem (k : string) (st : Storage) :
  getItem k (removeItem k st) = None.
Proof. unfold getItem, removeItem. now rewrite String.eqb_refl. Qed.


Lemma getItem_setItem (k v : string) (st : Storage) :
  getItem k (setItem k v st) = Some v.
Proof. unfold getItem, setItem. now rewrite String.eqb_refl. Qed.

(** What the restore effect does with an entry that parses. *)
Lemma restore_parsed (p : Props) (now : Z) (confirm : bool) (d : Dialog)
    (raw : string) (data : SavedData) :
  isOpen p = true ->
  getItem storage_key (localStorage d) = Some raw ->
  JsString.truthy raw = true ->
  JSON_parse raw = Some data ->
  restore_effect JSON_parse Date_getTime p now confirm d
  = let d1 :=
      match Date_getTime (saved_timestamp data) with
      | Some savedTime =>
          if now - savedTime <? oneHour
          then (if confirm
                then mkDialog
                       (or3 (saved_title data) (initialTitle p) "New Meeting")
                       (or3 (saved_transcript data) (initialTranscript p) EmptyString)
                       (or3 (saved_summary data) (initialSummary p) EmptyString)
                       (autoSaveAttempted d) (localStorage d)
                       (toasts d ++ [mkDialogToast "Data restored"
                                       "Your unsaved meeting data has been restored."])
                       (consoleErrors d) (scheduledSaves d)
                else d)
          else d
      | None => d
      end in
    mkDialog (title d1) (transcript d1) (summary d1) (autoSaveAttempted d1)
      (removeItem storage_key (localStorage d1)) (toasts d1)
      (consoleErrors d1) (scheduledSaves d1).
Proof.
  intros Ho Hg Ht Hp. unfold restore_effect. now rewrite Ho, Hg, Ht, Hp.
Qed.


(** X25. The beforeunload handler acts once per opening of the dialog: a
    second run, before the dialog is opened again, changes nothing and
    returns nothing to the browser.  With the dialog open and no attempt
    made yet it stores the current title, transcript and summary under the
    key, schedules exactly one save with them, leaves them as they are and
    returns the warning text; with the dialog closed it does nothing. *)
Theorem beforeunload_acts_once (p : Props) (timestamp timestamp' : string)
    (ok ok' : bool) (d : Dialog) :
  let r := handleBeforeUnload JSON_stringify p timestamp ok d in
  handleBeforeUnload JSON_stringify p timestamp' ok' (fst r) = (fst r, None)
  /\ (isOpen p = true -> autoSaveAttempted d = false -> ok = true ->
      getItem storage_key (localStorage (fst r))
      = Some (JSON_stringify (title d) (transcript d) (summary d) timestamp)
      /\ scheduledSaves (fst r)
         = scheduledSaves d ++ [(title d, transcript d, summary d)]
      /\ title (fst r) = title d /\ transcript (fst r) = transcript d
      /\ summary (fst r) = summary d
      /\ snd r <> None)
  /\ (isOpen p = false -> r = (d, None)).
Proof.
  intros r. subst r. unfold handleBeforeUnload.
  destruct (isOpen p) eqn:Ho; simpl.
  - destruct (autoSaveAttempted d) eqn:Ha; simpl; rewrite ?Ha; simpl.
    + split; [reflexivity|]. split; discriminate.
    + destruct ok; simpl.
      * split; [reflexivity|]. split; [|discriminate].
        intros _ _ _. split; [apply getItem_setItem|].
        repeat split; try reflexivity. discriminate.
      * split; [reflexivity|]. split; discriminate.
  - split; [reflexivity|]. split; [discriminate|reflexivity].
Qed.

(** X26. Data stored at unload comes back at the next opening.  If the
    entry written by the beforeunload handler parses back to the title,
    transcript and summary it was made of, is less than one hour old when
    the dialog opens again and the user accepts, then, whatever the state
    of the newly mounted dialog, the reset and the restore effect together
    leave the stored title, transcript and summary in place of the initial
    ones wherever the stored one is not empty, raise the toast, and remove
    the entry. *)
Theorem unload_then_open_restores (p p' : Props) (timestamp : string) (now savedTime : Z)
    (d fresh : Dialog) :
  isOpen p = true -> autoSaveAttempted d = false ->
  isOpen p' = true ->
  localStorage fresh
  = localStorage (fst (handleBeforeUnload JSON_stringify p timestamp true d)) ->
  JsString.truthy (JSON_stringify (title d) (transcript d) (summary d) timestamp) = true ->
  JSON_parse (JSON_stringify (title d) (transcript d) (summary d) timestamp)
  = Some (mkSavedData (Some (title d)) (Some (transcript d)) (Some (summary d))
            (Some timestamp)) ->
  Date_getTime (Some timestamp) = Some savedTime ->
  now - savedTime < oneHour ->
  let d' := restore_effect JSON_parse Date_getTime p' now true
              (reset_effect p' fresh) in
  title d' = or3 (Some (title d)) (initialTitle p') "New Meeting"
  /\ transcript d' = or3 (Some (transcript d)) (initialTranscript p') EmptyString
  /\ summary d' = or3 (Some (summary d)) (initialSummary p') EmptyString
  /\ (JsString.truthy (title d) = true -> title d' = title d)
  /\ toasts d' = toasts fresh ++ [mkDialogToast "Data restored"
                                    "Your unsaved meeting data has been restored."]
  /\ getItem storage_key (localStorage d') = None.
Proof.
  intros Ho Ha Ho' Hst Htruthy Hparse Hdate Hfresh d'.
  assert (Hg : getItem storage_key (localStorage (reset_effect p' fresh))
               = Some (JSON_stringify (title d) (transcript d) (summary d) timestamp)).
  { unfold reset_effect. rewrite Ho'. simpl. rewrite Hst.
    unfold handleBeforeUnload. rewrite Ho, Ha. simpl. apply getItem_setItem. }
  subst d'.
  rewrite (restore_parsed p' now true _ _ _ Ho' Hg Htruthy Hparse).
  simpl. rewrite Hdate.
  destruct (Z.ltb_spec (now - savedTime) oneHour) as [_|Hge]; [|lia].
  simpl. unfold reset_effect. rewrite Ho'. simpl.
  split; [reflexivity|]. split; [reflexivity|]. split; [reflexivity|].
  split; [intros ->; reflexivity|]. split; [reflexivity|].
  apply getItem_removeItem.
Qed.

End Effects.


Lemma unload_then_open_restores_witness :
  let stringify := fun a b c ts : string => (a ++ "|" ++ b ++ "|" ++ c ++ "|" ++ ts)%string in
  let parse := fun _ : string =>
                 Some (mkSavedData (Some "Kickoff") (Some "we met") (Some EmptyString)
                         (Some "t0")) in
  let getTime := fun _ : option string => Some 1000 in
  let p := mkProps true "New Meeting" EmptyString EmptyString in
  let d := mkDialog "Kickoff" "we met" EmptyString false (fun _ => None) [] [] [] in
  let fresh := mkDialog "New Meeting" EmptyString EmptyString false
                 (localStorage (fst (handleBeforeUnload stringify p "t0" true d)))
                 [] [] [] in
  let d' := restore_effect parse getTime p 5000 true (reset_effect p fresh) in
  (isOpen p = true /\ autoSaveAttempted d = false
   /\ Z.lt (5000 - 1000) oneHour)
  /\ title d' = "Kickoff" /\ transcript d' = "we met" /\ summary d' = EmptyString
  /\ getItem storage_key (localStorage d') = None.
Proof.
  intros stringify parse getTime p d fresh d'.
  assert (Hlt : 5000 - 1000 < oneHour) by (vm_compute; reflexivity).
  split; [repeat split; try reflexivity; exact Hlt|].
  destruct (unload_then_open_restores parse getTime stringify p p "t0" 5000 1000 d fresh
              eq_refl eq_refl eq_refl eq_refl eq_refl eq_refl eq_refl Hlt)
    as (Ht & Htr & Hs & _ & _ & Hg).
  split; [exact Ht|]. split; [exact Htr|]. split; [exact Hs | exact Hg].
Defined.

End EmergencySaveFacts.
